(** * The velocity-Verlet notebook [02_02_Verlet.ipynb]

    A shallow embedding of the notebook's code cells: the class [particle2]
    (the per-body state with its methods [accel], [move], [get_force],
    [verlet2] and the draft [verlet]) and the driver cell that allocates the
    trajectory arrays, builds the two planets and steps them.

    Numbers are what the interpreter computes with: IEEE-754 binary64 values
    (Rocq's primitive floats), each tagged with the run-time type that
    carries it, a Python [float] or a [numpy.float64] scalar.  The two types
    round alike and differ in one place, division by zero.

    The file has the model first ([Py], [P2], [Driver], [Cell]), then the
    notebook's constants and the specification's vocabulary ([Notebook],
    [Spec], [Bodies]), then the lemmas ([FloatFacts], [FloatSym],
    [P2Facts], [DriverFacts]), the properties of the class and of the
    driver ([P2Props], [DriverProps]) and their behaviour at the edges
    ([ClassBehaviour], [DriverBehaviour], [CellBehaviour]). *)

From Stdlib Require Import ZArith Bool Lia Floats QArith.
From stdpp Require Import base list.

(* ====================================================================== *)
(** ** Python values, exceptions and the statement monad *)
(* ====================================================================== *)

Module Py.

(** The exceptions the two code cells can raise. *)
Inductive exn : Set :=
| ZeroDivisionError
| ValueError
| IndexError
| NameError
| TypeError
| AttributeError
| OverflowError.

(** The value of an expression: an exception, or a result. *)
Definition result (A : Type) : Type := exn + A.

Definition rbind {A B} (r : result A) (k : A -> result B) : result B :=
  match r with
  | inl e => inl e
  | inr a => k a
  end.

(** The run-time type of a floating value.  Literals, [math.sqrt] results
    and the driver's constants are Python floats; an element read from an
    array made by [np.zeros] is a [numpy.float64].  These are the two
    types the notebook computes with.  The class does not convert its
    arguments, so a caller could also store a Python [int] in an
    attribute; such bodies are outside the model, whose statements are
    about bodies with float attributes. *)
Inductive kind : Set := PyFloat | NpFloat64.

Record num : Set := Num { kind_of : kind; val : float }.

(** A binary operation with a [numpy.float64] operand on either side is
    numpy's and returns a [numpy.float64]. *)
Definition coerce (a b : kind) : kind :=
  match a, b with
  | PyFloat, PyFloat => PyFloat
  | _, _ => NpFloat64
  end.

Definition add (a b : num) : num :=
  Num (coerce (kind_of a) (kind_of b)) (val a + val b).

Definition sub (a b : num) : num :=
  Num (coerce (kind_of a) (kind_of b)) (val a - val b).

Definition mul (a b : num) : num :=
  Num (coerce (kind_of a) (kind_of b)) (val a * val b).

Definition neg (a : num) : num := Num (kind_of a) (- val a).

(** The quotient both types compute when no exception is raised. *)
Definition quot (a b : num) : num :=
  Num (coerce (kind_of a) (kind_of b)) (val a / val b).

(** [a / b].  Python's float division raises [ZeroDivisionError] when the
    divisor compares equal to zero (either zero); numpy's, in its default
    error state, returns the IEEE quotient (an infinity or NaN) and only
    emits a [RuntimeWarning]. *)
Definition truediv (a b : num) : result num :=
  match coerce (kind_of a) (kind_of b) with
  | PyFloat =>
      if (val b =? 0)%float then inl ZeroDivisionError else inr (quot a b)
  | NpFloat64 => inr (quot a b)
  end.

(** [math.sqrt a]: the argument is converted to a C double and the result
    is a Python float; a negative argument raises [ValueError], while NaN
    and plus infinity are returned as they are. *)
Definition math_sqrt (a : num) : result num :=
  if (val a <? 0)%float then inl ValueError
  else inr (Num PyFloat (sqrt (val a))).

(** A Python float literal. *)
Definition lit (f : float) : num := Num PyFloat f.

(** Running statements against a mutable state [S]: either the statements
    return, or an exception propagates; in both cases the state reached is
    kept, since assignments made before a raise are not undone. *)
Inductive outcome (S A : Type) : Type :=
| Returned (a : A) (s : S)
| Raised (e : exn) (s : S).
Arguments Returned {S A} a s.
Arguments Raised {S A} e s.

Definition exit_state {S A} (o : outcome S A) : S :=
  match o with
  | Returned _ s => s
  | Raised _ s => s
  end.

Definition M (S A : Type) : Type := S -> outcome S A.

Definition ret {S A} (a : A) : M S A := fun s => Returned a s.

Definition bind {S A B} (c : M S A) (k : A -> M S B) : M S B :=
  fun s =>
    match c s with
    | Returned a s' => k a s'
    | Raised e s' => Raised e s'
    end.

Definition raise {S A} (e : exn) : M S A := fun s => Raised e s.

(** Evaluating an expression that reads the state. *)
Definition eval {S A} (e : S -> result A) : M S A :=
  fun s =>
    match e s with
    | inl ex => Raised ex s
    | inr a => Returned a s
    end.

(** An assignment. *)
Definition store {S} (f : S -> S) : M S unit := fun s => Returned tt (f s).

(** [for i in l: body i]. *)
Fixpoint for_ {S} (l : list nat) (body : nat -> M S unit) : M S unit :=
  match l with
  | [] => ret tt
  | i :: l' => bind (body i) (fun _ => for_ l' body)
  end.

(** [range(a, b)] for a non-negative literal start [a]. *)
Definition range (a : nat) (b : Z) : list nat :=
  seq a (Z.to_nat b - a).

End Py.

Declare Scope py_scope.
Delimit Scope py_scope with py.
Notation "x <- c ;; k" := (Py.bind c (fun x => k))
  (at level 100, c at next level, right associativity) : py_scope.
Notation "c ;; k" := (Py.bind c (fun _ => k))
  (at level 100, right associativity) : py_scope.

Declare Scope num_scope.
Delimit Scope num_scope with num.
Bind Scope num_scope with Py.num.
Notation "a + b" := (Py.add a b) : num_scope.
Notation "a - b" := (Py.sub a b) : num_scope.
Notation "a * b" := (Py.mul a b) : num_scope.
Notation "- a" := (Py.neg a) : num_scope.
Notation "a / b" := (Py.truediv a b) : num_scope.
Notation "a // b" := (Py.quot a b)
  (at level 40, left associativity) : num_scope.

(* ====================================================================== *)
(** ** The class [particle2] *)
(* ====================================================================== *)

Module P2.
Import Py.
Local Open Scope py_scope.
Local Open Scope num_scope.

(** The attributes [__init__] binds, in its order. *)
Record particle2 : Set := Particle2 {
  mass : num;
  x : num;
  y : num;
  vx : num;
  vy : num;
  dt : num;
  halfdt : num;
  fx : num;
  fy : num
}.

Definition set_x (v : num) (self : particle2) : particle2 :=
  Particle2 (mass self) v (y self) (vx self) (vy self)
            (dt self) (halfdt self) (fx self) (fy self).

Definition set_y (v : num) (self : particle2) : particle2 :=
  Particle2 (mass self) (x self) v (vx self) (vy self)
            (dt self) (halfdt self) (fx self) (fy self).

Definition set_vx (v : num) (self : particle2) : particle2 :=
  Particle2 (mass self) (x self) (y self) v (vy self)
            (dt self) (halfdt self) (fx self) (fy self).

Definition set_vy (v : num) (self : particle2) : particle2 :=
  Particle2 (mass self) (x self) (y self) (vx self) v
            (dt self) (halfdt self) (fx self) (fy self).

Definition set_fx (v : num) (self : particle2) : particle2 :=
  Particle2 (mass self) (x self) (y self) (vx self) (vy self)
            (dt self) (halfdt self) v (fy self).

Definition set_fy (v : num) (self : particle2) : particle2 :=
  Particle2 (mass self) (x self) (y self) (vx self) (vy self)
            (dt self) (halfdt self) (fx self) v.

(** [particle2(mass, x, y, vx, vy, fx, fy, dt)]: the constructor's only
    computation is [self.halfdt = self.dt / 2.]. *)
Definition __init__ (mass x y vx vy fx fy dt : num) : result particle2 :=
  rbind (dt / lit 2)
        (fun halfdt => inr (Particle2 mass x y vx vy dt halfdt fx fy)).

(** A method body: statements over [self]. *)
Definition method (A : Type) : Type := M particle2 A.

(** [accel]: the half kick. *)
Definition accel : method unit :=
  (* self.vx += self.fx * self.halfdt / self.mass *)
  d <- eval (fun self => fx self * halfdt self / mass self) ;;
  store (fun self => set_vx (vx self + d) self) ;;
  (* self.vy += self.fy * self.halfdt / self.mass *)
  d <- eval (fun self => fy self * halfdt self / mass self) ;;
  store (fun self => set_vy (vy self + d) self).

(** [move]: the drift. *)
Definition move : method unit :=
  (* self.x += self.vx * self.dt
               + self.fx * self.dt * self.halfdt / self.mass *)
  d <- eval (fun self => fx self * dt self * halfdt self / mass self) ;;
  store (fun self => set_x (x self + (vx self * dt self + d)) self) ;;
  (* self.y += self.vy * self.dt
               + self.fy * self.dt * self.halfdt / self.mass *)
  d <- eval (fun self => fy self * dt self * halfdt self / mass self) ;;
  store (fun self => set_y (y self + (vy self * dt self + d)) self).

Section WithGM.

(** The module-level [GM = 4*math.pi**2], a Python float read when
    [get_force] runs. *)
Variable GM : float.

Definition get_force : method unit :=
  (* r = math.sqrt(self.x*self.x+self.y*self.y) *)
  r <- eval (fun self => math_sqrt (x self * x self + y self * y self)) ;;
  (* r3 = r * r * r *)
  let r3 := r * r * r in
  (* self.fx = -GM * self.mass * self.x/r3 *)
  f <- eval (fun self => - lit GM * mass self * x self / r3) ;;
  store (set_fx f) ;;
  (* self.fy = -GM * self.mass * self.y/r3 *)
  f <- eval (fun self => - lit GM * mass self * y self / r3) ;;
  store (set_fy f).

Definition verlet2 : method unit :=
  move ;;
  accel ;;
  get_force ;;
  accel.

End WithGM.

(** The names [fx] and [fy] in [verlet] are not assigned in the method, so
    they are looked up at module level when the method runs.  The class
    cell binds neither; the driver cell binds both (its loop assigns [fx]
    and [fy] at module level). *)
Record globals : Set := Globals {
  g_fx : option num;
  g_fy : option num
}.

(** Reading a module-level name. *)
Definition name {A} (v : option A) : method A :=
  fun self =>
    match v with
    | Some a => Returned a self
    | None => Raised NameError self
    end.

(** [self.get_force(a, b)]: [get_force] is declared with the one parameter
    [self], so a call with two more positional arguments is refused before
    the body runs. *)
Definition get_force_with (a b : num) : method unit := raise TypeError.

(** The draft [verlet(self, dt)]. *)
Definition verlet (g : globals) (dt : num) : method unit :=
  (* self.get_force(fx, fy) *)
  a <- name (g_fx g) ;; b <- name (g_fy g) ;; get_force_with a b ;;
  (* self.x += self.vx*dt + 0.5*fx*dt*dt *)
  f <- name (g_fx g) ;;
  store (fun self =>
           set_x (x self + (vx self * dt + lit 0.5 * f * dt * dt)) self) ;;
  (* self.y += self.vy*dt + 0.5*fy*dt*dt *)
  f <- name (g_fy g) ;;
  store (fun self =>
           set_y (y self + (vy self * dt + lit 0.5 * f * dt * dt)) self) ;;
  (* self.vx += 0.5*fx*dt *)
  f <- name (g_fx g) ;;
  store (fun self => set_vx (vx self + lit 0.5 * f * dt) self) ;;
  (* self.vy += 0.5*fy*dt *)
  f <- name (g_fy g) ;;
  store (fun self => set_vy (vy self + lit 0.5 * f * dt) self) ;;
  (* self.get_force(fx, fy) *)
  a <- name (g_fx g) ;; b <- name (g_fy g) ;; get_force_with a b ;;
  (* self.vx += 0.5*fx*dt *)
  f <- name (g_fx g) ;;
  store (fun self => set_vx (vx self + lit 0.5 * f * dt) self) ;;
  (* self.vy += 0.5*fy*dt *)
  f <- name (g_fy g) ;;
  store (fun self => set_vy (vy self + lit 0.5 * f * dt) self).

End P2.

Notation "'let?' x := c 'in' k" := (Py.rbind c (fun x => k))
  (at level 10, x name, c at level 100, k at level 200, only parsing)
  : py_scope.

(* ====================================================================== *)
(** ** The driver cell *)
(* ====================================================================== *)

Module Driver.
Import Py.
Local Open Scope py_scope.
Local Open Scope num_scope.

(** A two-dimensional float64 array, row by row. *)
Abbreviation ndarray := (list (list float)).

(** [np.zeros(shape=(rows, cols))]; a negative dimension is refused.
    Every other shape is taken to be allocated: numpy's refusal of a shape
    too big for it or for the machine's memory is not modelled. *)
Definition np_zeros (rows cols : Z) : result ndarray :=
  if ((rows <? 0) || (cols <? 0))%Z then inl ValueError
  else inr (replicate (Z.to_nat rows) (replicate (Z.to_nat cols) 0%float)).

(** [a[i,j]] for non-negative [i], [j]: a [numpy.float64], or [IndexError]
    when an index is out of bounds. *)
Definition getitem (a : ndarray) (i j : nat) : result num :=
  match a !! i with
  | Some row =>
      match row !! j with
      | Some v => inr (Num NpFloat64 v)
      | None => inl IndexError
      end
  | None => inl IndexError
  end.

(** [a[i,j] = v] (and [a[i][j] = v], which writes through the row view). *)
Definition setitem (i j : nat) (v : num) (a : ndarray) : result ndarray :=
  match a !! i with
  | Some row =>
      match row !! j with
      | Some _ => inr (<[i := <[j := val v]> row]> a)
      | None => inl IndexError
      end
  | None => inl IndexError
  end.

(** An element of the list [planets]: the placeholder [[particle2]] that
    the first loop appends, or a [particle2] object. *)
Inductive slot : Set :=
| ClassList
| Object (p : P2.particle2).

(** The module-level names the cell binds and later reads.  A name not
    bound yet holds an empty list. *)
Record state : Type := State {
  x : ndarray;
  y : ndarray;
  vx : ndarray;
  vy : ndarray;
  energy : ndarray;
  planets : list slot;
  globals : P2.globals
}.

Definition set_x (a : ndarray) (st : state) : state :=
  State a (y st) (vx st) (vy st) (energy st) (planets st) (globals st).

Definition set_y (a : ndarray) (st : state) : state :=
  State (x st) a (vx st) (vy st) (energy st) (planets st) (globals st).

Definition set_vx (a : ndarray) (st : state) : state :=
  State (x st) (y st) a (vy st) (energy st) (planets st) (globals st).

Definition set_vy (a : ndarray) (st : state) : state :=
  State (x st) (y st) (vx st) a (energy st) (planets st) (globals st).

Definition set_energy (a : ndarray) (st : state) : state :=
  State (x st) (y st) (vx st) (vy st) a (planets st) (globals st).

Definition set_planets (l : list slot) (st : state) : state :=
  State (x st) (y st) (vx st) (vy st) (energy st) l (globals st).

Definition set_globals (g : P2.globals) (st : state) : state :=
  State (x st) (y st) (vx st) (vy st) (energy st) (planets st) g.

(** The state before the cell runs: the class cell has bound neither
    [fx] nor [fy]. *)
Definition fresh_state : state :=
  State [] [] [] [] [] [] (P2.Globals None None).

Definition stmt (A : Type) : Type := M state A.

(** [a[i,j] = e] on the array held by one of the names. *)
Definition assign (get : state -> ndarray) (set : ndarray -> state -> state)
    (i j : nat) (e : state -> result num) : stmt unit :=
  v <- eval e ;;
  a <- eval (fun st => setitem i j v (get st)) ;;
  store (set a).

(** [planets[i]] as an object whose attributes can be read. *)
Definition planet (i : nat) (st : state) : result P2.particle2 :=
  match planets st !! i with
  | Some (Object p) => inr p
  | Some ClassList => inl AttributeError
  | None => inl IndexError
  end.

(** [planets[i] = v]. *)
Definition setplanet (i : nat) (v : slot) : stmt unit :=
  fun st =>
    match planets st !! i with
    | Some _ => Returned tt (set_planets (<[i := v]> (planets st)) st)
    | None => Raised IndexError st
    end.

(** [planets[i].meth()]: the method mutates the object in place, also when
    it raises. *)
Definition call (i : nat) (meth : P2.method unit) : stmt unit :=
  fun st =>
    match planet i st with
    | inl e => Raised e st
    | inr p =>
        match meth p with
        | Returned _ p' =>
            Returned tt (set_planets (<[i := Object p']> (planets st)) st)
        | Raised e p' =>
            Raised e (set_planets (<[i := Object p']> (planets st)) st)
        end
    end.

(** [m[i]] on a Python list. *)
Definition index (m : list float) (i : nat) : result num :=
  match m !! i with
  | Some v => inr (lit v)
  | None => inl IndexError
  end.

Section Script.

(** [GM], bound by the class cell. *)
Variable GM : float.

(** [a ** b] on Python floats is computed by the platform's [pow]; it is
    used only for the two initial energies. *)
Variable float_pow : float -> float -> result float.

(** The cell's constants: [NPLANETS], the masses, radii and circular-orbit
    speeds of the two planets, the time step, and [nsteps = int(tmax/dt)]. *)
Variables (NPLANETS : Z) (m1 r1 v1 m2 r2 v2 dt : float) (nsteps : Z).

(** [0.5*v**2 - GM/r]. *)
Definition energy0 (v r : float) : result num :=
  let? p := float_pow v 2 in
  let? q := lit GM / lit r in
  inr (lit 0.5 * lit p - q).

(** The five [np.zeros(shape=(nsteps,NPLANETS))] assignments. *)
Definition allocate : stmt unit :=
  a <- eval (fun _ => np_zeros nsteps NPLANETS) ;; store (set_x a) ;;
  a <- eval (fun _ => np_zeros nsteps NPLANETS) ;; store (set_y a) ;;
  a <- eval (fun _ => np_zeros nsteps NPLANETS) ;; store (set_vx a) ;;
  a <- eval (fun _ => np_zeros nsteps NPLANETS) ;; store (set_vy a) ;;
  a <- eval (fun _ => np_zeros nsteps NPLANETS) ;; store (set_energy a).

(** The initial conditions, stored in row 0. *)
Definition initial_conditions : stmt unit :=
  assign x set_x 0 0 (fun _ => inr (lit r1)) ;;
  assign y set_y 0 0 (fun _ => inr (lit 0)) ;;
  assign vx set_vx 0 0 (fun _ => inr (lit 0)) ;;
  assign vy set_vy 0 0 (fun _ => inr (lit v1)) ;;
  assign energy set_energy 0 0 (fun _ => energy0 v1 r1) ;;
  assign x set_x 0 1 (fun _ => inr (lit r2)) ;;
  assign y set_y 0 1 (fun _ => inr (lit 0)) ;;
  assign vx set_vx 0 1 (fun _ => inr (lit 0)) ;;
  assign vy set_vy 0 1 (fun _ => inr (lit v2)) ;;
  assign energy set_energy 0 1 (fun _ => energy0 v2 r2).

(** [planets = []] and the loop appending one placeholder per planet. *)
Definition make_list : stmt unit :=
  store (set_planets []) ;;
  for_ (range 0 NPLANETS)
       (fun _ => store (fun st => set_planets (planets st ++ [ClassList]) st)).

(** One turn of the loop that builds planet [i] and its initial force.
    The constructor's [fx], [fy] arguments are the integer literals [0];
    both attributes are overwritten by the turn's last two assignments
    before anything reads them, and are shown here as float zeros. *)
Definition build (i : nat) : stmt unit :=
  (* planets[i] = particle2(m[i], x[0,i], y[0,i], vx[0,i], vy[0,i], 0, 0, dt) *)
  mi <- eval (fun _ => index [m1; m2] i) ;;
  xi <- eval (fun st => getitem (x st) 0 i) ;;
  yi <- eval (fun st => getitem (y st) 0 i) ;;
  vxi <- eval (fun st => getitem (vx st) 0 i) ;;
  vyi <- eval (fun st => getitem (vy st) 0 i) ;;
  p <- eval (fun _ => P2.__init__ mi xi yi vxi vyi (lit 0) (lit 0) (lit dt)) ;;
  setplanet i (Object p) ;;
  (* r = math.sqrt(planets[i].x*planets[i].x+planets[i].y*planets[i].y) *)
  r <- eval (fun st => let? p := planet i st in
                       math_sqrt (P2.x p * P2.x p + P2.y p * P2.y p)) ;;
  (* r3 = r * r * r *)
  let r3 := r * r * r in
  (* fx = -GM*planets[i].mass*planets[i].x/r3 *)
  f <- eval (fun st => let? p := planet i st in
                       - lit GM * P2.mass p * P2.x p / r3) ;;
  store (fun st =>
           set_globals (P2.Globals (Some f) (P2.g_fy (globals st))) st) ;;
  (* fy = -GM*planets[i].mass*planets[i].y/r3 *)
  f <- eval (fun st => let? p := planet i st in
                       - lit GM * P2.mass p * P2.y p / r3) ;;
  store (fun st =>
           set_globals (P2.Globals (P2.g_fx (globals st)) (Some f)) st) ;;
  (* planets[i].fx = fx *)
  f <- eval (fun st => match P2.g_fx (globals st) with
                       | Some f => inr f
                       | None => inl NameError
                       end) ;;
  call i (store (P2.set_fx f)) ;;
  (* planets[i].fy = fy *)
  f <- eval (fun st => match P2.g_fy (globals st) with
                       | Some f => inr f
                       | None => inl NameError
                       end) ;;
  call i (store (P2.set_fy f)).

(** [m = [m1, m2]] and the loop over [range(NPLANETS)]. *)
Definition build_all : stmt unit :=
  for_ (range 0 NPLANETS) build.

(** Everything before the stepping loop. *)
Definition setup : stmt unit :=
  allocate ;; initial_conditions ;; make_list ;; build_all.

(** The body of the inner loop: step planet [n], then record row [i]. *)
Definition step_and_record (i n : nat) : stmt unit :=
  (* planets[n].verlet2() *)
  call n (P2.verlet2 GM) ;;
  (* x[i,n] = planets[n].x *)
  assign x set_x i n (fun st => let? p := planet n st in inr (P2.x p)) ;;
  (* y[i,n] = planets[n].y *)
  assign y set_y i n (fun st => let? p := planet n st in inr (P2.y p)) ;;
  (* vx[i,n] = planets[n].vx *)
  assign vx set_vx i n (fun st => let? p := planet n st in inr (P2.vx p)) ;;
  (* vy[i,n] = planets[n].vy *)
  assign vy set_vy i n (fun st => let? p := planet n st in inr (P2.vy p)).

(** [for i in range(1,nsteps): for n in range(0,NPLANETS): ...]. *)
Definition stepping : stmt unit :=
  for_ (range 1 nsteps)
       (fun i => for_ (range 0 NPLANETS) (fun n => step_and_record i n)).

(** The cell up to the end of the stepping loop (what follows builds the
    time axis for the plot). *)
Definition run : outcome state unit :=
  (setup ;; stepping) fresh_state.

End Script.

End Driver.

(* ====================================================================== *)
(** ** The rest of the driver cell, and the plot cell *)
(* ====================================================================== *)

Module Cell.
Import Py.
Local Open Scope py_scope.
Local Open Scope num_scope.

(** [math.sqrt(GM/r)], the speed of a circular orbit of radius [r]. *)
Definition orbit_speed (GM r : float) : result num :=
  let? q := lit GM / lit r in
  math_sqrt q.

(** [int(f)] on a float: the integer part, rounding toward zero; NaN
    raises [ValueError] and an infinity [OverflowError]. *)
Definition int_ (f : num) : result Z :=
  match Prim2SF (val f) with
  | S754_nan => inl ValueError
  | S754_infinity _ => inl OverflowError
  | S754_zero _ => inr 0%Z
  | S754_finite s m e =>
      let n := if (0 <=? e)%Z then (Z.pos m * 2 ^ e)%Z
               else (Z.pos m / 2 ^ (- e))%Z in
      inr (if s then (- n)%Z else n)
  end.

Section Top.

Variable GM : float.

(** The literals of the cell's first lines that the next three read: the
    radii, [dt] and [tmax]. *)
Variables (r1 r2 dt tmax : float).

(** The names the cell computes before it allocates anything: [v1], [v2]
    and [nsteps]. *)
Definition constants : result (num * num * Z) :=
  (* v1 = math.sqrt(GM/r1) *)
  let? v1 := orbit_speed GM r1 in
  (* v2 = math.sqrt(GM/r2) *)
  let? v2 := orbit_speed GM r2 in
  (* nsteps = int(tmax/dt) *)
  let? nsteps := (let? q := lit tmax / lit dt in int_ q) in
  inr (v1, v2, nsteps).

End Top.

(** The names bound once the five [np.zeros(shape=(nsteps,NPLANETS))]
    calls have returned.  Whether they return is numpy's matter: it
    refuses a negative shape, and a shape too big for it or for the
    machine's memory. *)
Definition allocated (nsteps NPLANETS : Z) : Driver.state :=
  let a := replicate (Z.to_nat nsteps)
             (replicate (Z.to_nat NPLANETS) 0%float) in
  Driver.State a a a a a [] (P2.Globals None None).

Section Rest.

Variable GM : float.
Variable float_pow : float -> float -> result float.
Variables (NPLANETS : Z) (m1 r1 v1 m2 r2 v2 dt : float) (nsteps : Z).

(** The cell from [x[0,0] = r1] to the end of the stepping loop, run on
    the arrays as allocated.  (The cell's last line,
    [t = np.linspace(0.,tmax,nsteps)], builds a time axis that nothing
    reads.) *)
Definition from_arrays : outcome Driver.state unit :=
  (Driver.initial_conditions GM float_pow r1 v1 r2 v2 ;;
   Driver.make_list NPLANETS ;;
   Driver.build_all GM NPLANETS m1 m2 dt ;;
   Driver.stepping GM NPLANETS nsteps) (allocated nsteps NPLANETS).

End Rest.

(** The slice [a[:,j]] of an array made with [cols] columns, for a
    non-negative [j]. *)
Definition column (cols : Z) (a : Driver.ndarray) (j : nat)
  : result (list float) :=
  if (j <? Z.to_nat cols)%nat then inr (map (fun row => nth j row 0%float) a)
  else inl IndexError.

(** The two data arguments [x[:,j]], [y[:,j]] of a [pyplot.plot] call of
    the plot cell. *)
Definition curve (cols : Z) (st : Driver.state) (j : nat)
  : result (list float * list float) :=
  let? xs := column cols (Driver.x st) j in
  let? ys := column cols (Driver.y st) j in
  inr (xs, ys).

End Cell.

(* ====================================================================== *)
(** ** The notebook's constants *)
(* ====================================================================== *)

Module Notebook.
Import Py.
Set Warnings "-inexact-float".

(** [GM = 4*math.pi**2] evaluates to this float. *)
Definition GM : float := 39.47841760435743.

Definition NPLANETS : Z := 2.

Definition m1 : float := 0.1.
Definition r1 : float := 1.
(** [v1 = math.sqrt(GM/r1)]. *)
Definition v1 : float := sqrt (GM / r1).

Definition m2 : float := 0.01.
Definition r2 : float := 4 / 3.
(** [v2 = math.sqrt(GM/r2)]. *)
Definition v2 : float := sqrt (GM / r2).

Definition dt : float := 0.001.
Definition tmax : float := 2.
(** [nsteps = int(tmax/dt)]: the quotient is [2000.0]. *)
Definition nsteps : Z := 2000.

(** A [pow] for the exponent 2 of the two initial energies: an instance
    of the parameter [float_pow] for the examples at the notebook's
    constants.  The theorems take [float_pow] as a parameter. *)
Definition pow (a b : float) : result float := inr (a * a)%float.

(** The first planet as the driver builds it, with its initial force. *)
Definition planet1 : P2.particle2 :=
  P2.Particle2 (lit m1)
    (Num NpFloat64 r1) (Num NpFloat64 0)
    (Num NpFloat64 0) (Num NpFloat64 v1)
    (lit dt) (lit 0.0005)
    (Num NpFloat64 (-3.947841760435743)) (Num NpFloat64 (-0)).

(** The first planet after its first step (row 1 of the trajectory). *)
Definition planet1_row1 : P2.particle2 :=
  P2.Particle2 (lit m1)
    (Num NpFloat64 0.99998026079119784) (Num NpFloat64 0.0062831853071795866)
    (Num NpFloat64 (-0.039478027956456857)) (Num NpFloat64 6.2830612820729375)
    (lit dt) (lit 0.0005)
    (Num NpFloat64 (-3.947763830855628))
    (Num NpFloat64 (-0.024805021329742449)).

(** [particle2()]: every argument at its default. *)
Definition default : P2.particle2 :=
  P2.Particle2 (lit 1) (lit 0) (lit 0) (lit 0) (lit 0)
    (lit 0.001) (lit 0.0005) (lit 0) (lit 0).

(** The first planet after its second step (row 2). *)
Definition planet1_row2 : P2.particle2 :=
  P2.Particle2 (lit m1)
    (Num NpFloat64 0.9999210439440871) (Num NpFloat64 0.012566122564145875)
    (Num NpFloat64 (-0.07895449733669728)) (Num NpFloat64 6.2826892116497408)
    (lit dt) (lit 0.0005)
    (Num NpFloat64 (-3.9475300451924564))
    (Num NpFloat64 (-0.049609063309513167)).

(** What the closed forms of the new [y] and the new [vx] evaluate to in
    binary64 at the first planet's second step. *)
Definition closed_y_row2 : float := 0.012566122564145877.
Definition closed_vx_row2 : float := -0.078954497336697266.

(** [particle2(1., -9., 0., 2.**54, 0., GM*9./729., -0., 8.)]: a fast body
    at distance 9, holding the central force at its position.  Its drift
    adds [vx*dt = 2.**57] and [fx*dt*halfdt/mass], about 15.6, which is
    less than half the spacing (32) of the floats above [2.**57]. *)
Definition fast : P2.particle2 :=
  P2.Particle2 (lit 1) (lit (-9)) (lit 0) (lit 0x1p+54) (lit 0)
    (lit 8) (lit 4)
    (lit (- GM * 1 * (-9) / 729)) (lit (- GM * 1 * 0 / 729)).

(** [particle2(x=2.**-500)]: the constructor's defaults, at a tiny
    distance from the centre. *)
Definition tiny : P2.particle2 :=
  P2.Particle2 (lit 1) (lit 0x1p-500) (lit 0) (lit 0) (lit 0)
    (lit 0.001) (lit 0.0005) (lit 0) (lit 0).

(** A body built the driver's way, from array elements that are zero:
    [particle2(1., x[0,0], y[0,0])] with [x = y = np.zeros((1,1))]. *)
Definition numpy_origin : P2.particle2 :=
  P2.Particle2 (lit 1) (Num NpFloat64 0) (Num NpFloat64 0) (lit 0) (lit 0)
    (lit 0.001) (lit 0.0005) (lit 0) (lit 0).

(** [particle2(1., 1., 0., GM/2. - 1., 0., -GM, -0., 1.)]: its force is
    the central force at (1, 0), and its drift is
    [(GM/2. - 1.) + (-GM/2.) = -1.], which takes it exactly to the
    origin. *)
Definition inbound : P2.particle2 :=
  P2.Particle2 (lit 1) (lit 1) (lit 0) (lit (GM / 2 - 1)) (lit 0)
    (lit 1) (lit 0.5) (lit (- GM)) (lit (-0)).

(** [particle2(m1, r1, 0., 0., v1, -GM*m1, -0., dt)]: the first planet's
    numbers, held as Python floats. *)
Definition orbiting : P2.particle2 :=
  P2.Particle2 (lit m1) (lit r1) (lit 0) (lit 0) (lit v1)
    (lit dt) (lit 0.0005) (lit (-3.947841760435743)) (lit (-0)).

(** [orbiting] after one call of [verlet2]. *)
Definition orbiting_row1 : P2.particle2 :=
  P2.Particle2 (lit m1)
    (lit 0.99998026079119784) (lit 0.0062831853071795866)
    (lit (-0.039478027956456857)) (lit 6.2830612820729375)
    (lit dt) (lit 0.0005)
    (lit (-3.947763830855628)) (lit (-0.024805021329742449)).


End Notebook.

(* ====================================================================== *)
(** ** The specification's vocabulary *)
(* ====================================================================== *)

Module Spec.
Import Py.
Local Open Scope py_scope.
Local Open Scope num_scope.

(** "|position| = sqrt(x² + y²)". *)
Definition norm (px py : num) : result num :=
  math_sqrt (px * px + py * py).

(** The value [norm] returns, and its cube ("|position|^3", computed as
    [r * r * r]). *)
Definition radius (px py : num) : num :=
  Num PyFloat (sqrt (val px * val px + val py * val py)).

Definition cube (r : num) : num := r * r * r.

(** "force = -GM * mass * position / |position|^3", componentwise. *)
Definition central_force (GM : float) (m px py : num) : result (num * num) :=
  let? r := norm px py in
  let r3 := r * r * r in
  let? f1 := - lit GM * m * px / r3 in
  let? f2 := - lit GM * m * py / r3 in
  inr (f1, f2).

(** "force holds the force evaluated at the current position". *)
Definition fresh (GM : float) (b : P2.particle2) : Prop :=
  central_force GM (P2.mass b) (P2.x b) (P2.y b) = inr (P2.fx b, P2.fy b).

(** "drift: position += velocity*Δt + force*Δt*(Δt/2)/mass", one
    component, each operation rounded as the code rounds it. *)
Definition drift (p v f dt halfdt m : num) : num :=
  p + (v * dt + f * dt * halfdt // m).

(** "halfKick: velocity += force * (Δt/2) / mass", one component. *)
Definition half_kick (v f halfdt m : num) : num :=
  v + f * halfdt // m.

(** "drift()" as a change of state: both components at once. *)
Definition drifted (b : P2.particle2) : P2.particle2 :=
  P2.Particle2 (P2.mass b)
    (drift (P2.x b) (P2.vx b) (P2.fx b) (P2.dt b) (P2.halfdt b) (P2.mass b))
    (drift (P2.y b) (P2.vy b) (P2.fy b) (P2.dt b) (P2.halfdt b) (P2.mass b))
    (P2.vx b) (P2.vy b) (P2.dt b) (P2.halfdt b) (P2.fx b) (P2.fy b).

(** "halfKick()" as a change of state. *)
Definition kicked (b : P2.particle2) : P2.particle2 :=
  P2.Particle2 (P2.mass b) (P2.x b) (P2.y b)
    (half_kick (P2.vx b) (P2.fx b) (P2.halfdt b) (P2.mass b))
    (half_kick (P2.vy b) (P2.fy b) (P2.halfdt b) (P2.mass b))
    (P2.dt b) (P2.halfdt b) (P2.fx b) (P2.fy b).

(** The body with its stored force replaced. *)
Definition with_force (F : num * num) (b : P2.particle2) : P2.particle2 :=
  P2.Particle2 (P2.mass b) (P2.x b) (P2.y b) (P2.vx b) (P2.vy b)
    (P2.dt b) (P2.halfdt b) (fst F) (snd F).

(** The closed forms "x + v*Δt + (Δt²/2)*f_old/m" and
    "v + (Δt/2)*(f_old + f_new)/m", read as binary64 expressions. *)
Definition closed_position (p v f dt m : float) : float :=
  (p + v * dt + (dt * dt / 2) * f / m)%float.

Definition closed_velocity (v f_old f_new dt m : float) : float :=
  (v + (dt / 2) * (f_old + f_new) / m)%float.

(** The closed form of the position read over the rationals, without
    rounding. *)
Definition closed_position_exact (p v f dt m : Q) : Q :=
  (p + v * dt + (dt * dt / 2) * f / m)%Q.

(** The rational number a finite float stands for (zero for the others). *)
Definition exact (f : float) : Q :=
  match Prim2SF f with
  | S754_finite s m e =>
      ((if s then Zneg m else Zpos m) # 1) * Qpower 2 e
  | _ => 0
  end%Q.

(** The body's position is a numpy pair, as it is for every planet the
    driver makes; the stored force is then a numpy pair as well. *)
Definition numpy_body (b : P2.particle2) : Prop :=
  kind_of (P2.x b) = NpFloat64 /\ kind_of (P2.y b) = NpFloat64 /\
  kind_of (P2.fx b) = NpFloat64 /\ kind_of (P2.fy b) = NpFloat64.

(** The planet the driver builds from a mass, row 0 of the four arrays
    and the time step, holding the initial force the driver computes. *)
Definition built (GM m px py pvx pvy dt : float) : P2.particle2 :=
  let X := Num NpFloat64 px in
  let Y := Num NpFloat64 py in
  P2.Particle2 (lit m) X Y (Num NpFloat64 pvx) (Num NpFloat64 pvy)
    (lit dt) (lit dt // lit 2)
    (- lit GM * lit m * X // cube (radius X Y))
    (- lit GM * lit m * Y // cube (radius X Y)).

(** A recorded sample: position and velocity. *)
Definition sample (b : P2.particle2) : float * float * float * float :=
  (val (P2.x b), val (P2.y b), val (P2.vx b), val (P2.vy b)).

(** Row [i], column [n] of the four trajectory arrays taken together. *)
Definition recorded (st : Driver.state) (i n : nat)
  : option (float * float * float * float) :=
  rx ← Driver.x st !! i; ry ← Driver.y st !! i;
  rvx ← Driver.vx st !! i; rvy ← Driver.vy st !! i;
  px ← rx !! n; py ← ry !! n; pvx ← rvx !! n; pvy ← rvy !! n;
  Some (px, py, pvx, pvy).

(** [k] calls of [verlet2] in a row. *)
Fixpoint steps (GM : float) (k : nat) : P2.method unit :=
  match k with
  | O => ret tt
  | S k' => steps GM k' ;; P2.verlet2 GM
  end.

(** The state [k] calls of [verlet2] leave the body in. *)
Definition after (GM : float) (k : nat) (b : P2.particle2) : P2.particle2 :=
  exit_state (steps GM k b).

(** An array with [k] rows still holding [np.zeros]' zeros, for two
    planets. *)
Definition zeros (k : nat) : list (list float) :=
  replicate k [0%float; 0%float].

(** Row [j] of a trajectory array: attribute [f] of the two planets after
    [j] steps each. *)
Definition row_of (GM : float) (f : P2.particle2 -> num)
    (P Q : P2.particle2) (j : nat) : list float :=
  [val (f (after GM j P)); val (f (after GM j Q))].

Definition rows (GM : float) (f : P2.particle2 -> num)
    (P Q : P2.particle2) (k : nat) : list (list float) :=
  map (row_of GM f P Q) (seq 0 k).

(** The driver's state once rows [0..k] are recorded and [rest] rows are
    still to come: the planets have made [k] steps each. *)
Definition traj_state (GM : float) (P Q : P2.particle2)
    (E : list (list float)) (g : P2.globals) (k rest : nat) : Driver.state :=
  Driver.State
    (rows GM P2.x P Q (S k) ++ zeros rest)
    (rows GM P2.y P Q (S k) ++ zeros rest)
    (rows GM P2.vx P Q (S k) ++ zeros rest)
    (rows GM P2.vy P Q (S k) ++ zeros rest)
    E
    [Driver.Object (after GM k P); Driver.Object (after GM k Q)]
    g.

(** An array of [rows] rows of [cols] elements each. *)
Definition has_shape (a : list (list float)) (rows cols : nat) : Prop :=
  length a = rows /\ Forall (fun r => length r = cols) a.

End Spec.

(* ====================================================================== *)
(** ** Kinds of bodies *)
(* ====================================================================== *)

Module Bodies.
Import Py.
Local Open Scope num_scope.
Set Warnings "-inexact-float".

(** Every attribute is a Python float, as when the class is used on its
    own with float arguments. *)
Definition python_body (b : P2.particle2) : Prop :=
  kind_of (P2.mass b) = PyFloat /\
  kind_of (P2.x b) = PyFloat /\ kind_of (P2.y b) = PyFloat /\
  kind_of (P2.vx b) = PyFloat /\ kind_of (P2.vy b) = PyFloat /\
  kind_of (P2.dt b) = PyFloat /\ kind_of (P2.halfdt b) = PyFloat /\
  kind_of (P2.fx b) = PyFloat /\ kind_of (P2.fy b) = PyFloat.

(** The body reflected through the centre of force: position, velocity
    and stored force change sign. *)
Definition mirror (b : P2.particle2) : P2.particle2 :=
  P2.Particle2 (P2.mass b) (- P2.x b) (- P2.y b) (- P2.vx b) (- P2.vy b)
    (P2.dt b) (P2.halfdt b) (- P2.fx b) (- P2.fy b).

(** An outcome with its exit state changed by [f]. *)
Definition through {S A} (f : S -> S) (o : outcome S A) : outcome S A :=
  match o with
  | Returned a s => Returned a (f s)
  | Raised e s => Raised e (f s)
  end.

(** [r * r * r] at the body's position, the divisor of [get_force]. *)
Definition r3 (b : P2.particle2) : num :=
  Spec.cube (Spec.radius (P2.x b) (P2.y b)).

(** [0.5*v**2 - GM/r] with the square computed as [v * v]. *)
Definition initial_energy (GM v r : float) : num :=
  lit 0.5 * lit (v * v) - lit GM // lit r.

(** [Notebook.numpy_origin] holding the force [get_force] gives it: numpy
    divides zero by zero without raising. *)
Definition lost : P2.particle2 :=
  Spec.with_force (Num NpFloat64 nan, Num NpFloat64 nan)
    Notebook.numpy_origin.


(** [particle2(0.)]: the defaults, with mass zero. *)
Definition massless : P2.particle2 :=
  P2.Particle2 (lit 0) (lit 0) (lit 0) (lit 0) (lit 0)
    (lit 0.001) (lit 0.0005) (lit 0) (lit 0).

End Bodies.

(* ====================================================================== *)
(** ** Facts about binary64 arithmetic used by the model *)
(* ====================================================================== *)

Module FloatFacts.

(** A specification-level float is "not below zero" when it is neither a
    negative finite number nor minus infinity (zeros of either sign and
    NaN compare as not less than zero). *)
Definition sf_not_neg (f : spec_float) : bool :=
  match f with
  | S754_infinity true | S754_finite true _ _ => false
  | _ => true
  end.

Lemma round_aux_not_neg prec emax m e l :
  sf_not_neg (binary_round_aux prec emax false m e l) = true.
Proof.
  unfold binary_round_aux.
  destruct (shr_fexp prec emax m e l) as [mrs' e'].
  destruct (shr_fexp prec emax _ e' loc_Exact) as [mrs'' e''].
  destruct (shr_m mrs'') as [|p|p]; simpl; auto.
  destruct (Z.leb e'' (emax - prec)); reflexivity.
Qed.

Lemma SFmul_self_not_neg prec emax f :
  sf_not_neg (SFmul prec emax f f) = true.
Proof.
  destruct f as [s|s| |s m e]; simpl; auto.
  - destruct s; reflexivity.
  - rewrite xorb_nilpotent. apply round_aux_not_neg.
Qed.

Lemma SFadd_not_neg prec emax f g :
  sf_not_neg f = true -> sf_not_neg g = true ->
  sf_not_neg (SFadd prec emax f g) = true.
Proof.
  destruct f as [s|s| |s m e], g as [s'|s'| |s' m' e'];
    simpl; intros Hf Hg; auto;
    try (destruct s; try discriminate);
    try (destruct s'; try discriminate); auto.
  cbn [cond_Zopp]. unfold binary_normalize.
  rewrite <- Pos2Z.inj_add. unfold binary_round.
  destruct (shl_align _ _ _) as [mz ez]. apply round_aux_not_neg.
Qed.

Lemma not_neg_ltb_zero f :
  sf_not_neg f = true -> SFltb f (S754_zero false) = false.
Proof.
  destruct f as [s|s| |s m e]; simpl; auto; destruct s; auto; discriminate.
Qed.

(** A sum of two squares is never below zero, whatever rounding,
    overflow or NaN occurs on the way. *)
Lemma sum_squares_not_neg (a b : float) :
  (a * a + b * b <? 0)%float = false.
Proof.
  rewrite FloatAxioms.ltb_spec, FloatAxioms.add_spec, !FloatAxioms.mul_spec.
  change (Prim2SF 0) with (S754_zero false).
  apply not_neg_ltb_zero, SFadd_not_neg; apply SFmul_self_not_neg.
Qed.

(** The two zeros are the only floats that compare equal to zero. *)
Lemma eqb_zero_cases (f : float) :
  (f =? 0)%float = true -> f = 0%float \/ f = (-0)%float.
Proof.
  rewrite FloatAxioms.eqb_spec. change (Prim2SF 0) with (S754_zero false).
  intros H. rewrite <- (SF2Prim_Prim2SF f).
  destruct (Prim2SF f) as [s|s| |s m e]; simpl in H; try discriminate.
  - destruct s; [right | left]; reflexivity.
  - destruct s; discriminate.
  - destruct s; discriminate.
Qed.

(** A float above zero does not compare equal to zero. *)
Lemma pos_not_zero (f : float) :
  (0 <? f)%float = true -> (f =? 0)%float = false.
Proof.
  rewrite FloatAxioms.ltb_spec, FloatAxioms.eqb_spec.
  change (Prim2SF 0) with (S754_zero false).
  destruct (Prim2SF f) as [s|s| |s m e]; simpl; try discriminate;
    destruct s; auto; discriminate.
Qed.

End FloatFacts.

(* ====================================================================== *)
(** ** Sign symmetry and NaN in binary64 arithmetic *)
(* ====================================================================== *)

Module FloatSym.

(** *** Sign changes commute with multiplication and division *)

Lemma round_aux_opp prec emax s m e l :
  binary_round_aux prec emax (negb s) m e l
  = SFopp (binary_round_aux prec emax s m e l).
Proof.
  unfold binary_round_aux.
  destruct (shr_fexp prec emax m e l) as [mrs' e'].
  destruct (shr_fexp prec emax _ e' loc_Exact) as [mrs'' e''].
  destruct (shr_m mrs'') as [|p|p]; simpl; auto.
  destruct (Z.leb e'' (emax - prec)); reflexivity.
Qed.

Lemma SFmul_opp_r prec emax f g :
  SFmul prec emax f (SFopp g) = SFopp (SFmul prec emax f g).
Proof.
  destruct f as [s|s| |s m e], g as [s'|s'| |s' m' e']; simpl;
    rewrite <- ?negb_xorb_r; auto using round_aux_opp.
Qed.

Lemma SFmul_opp_l prec emax f g :
  SFmul prec emax (SFopp f) g = SFopp (SFmul prec emax f g).
Proof.
  destruct f as [s|s| |s m e], g as [s'|s'| |s' m' e']; simpl;
    rewrite <- ?negb_xorb_l; auto using round_aux_opp.
Qed.

Lemma SFdiv_opp_l prec emax f g :
  SFdiv prec emax (SFopp f) g = SFopp (SFdiv prec emax f g).
Proof.
  destruct f as [s|s| |s m e], g as [s'|s'| |s' m' e']; simpl;
    rewrite <- ?negb_xorb_l; auto.
  destruct (SFdiv_core_binary _ _ _ _ _ _) as [[mz ez] lz].
  apply round_aux_opp.
Qed.

Lemma mul_opp_r (a b : float) : (a * - b = - (a * b))%float.
Proof.
  apply Prim2SF_inj.
  rewrite FloatAxioms.mul_spec, !FloatAxioms.opp_spec, FloatAxioms.mul_spec.
  apply SFmul_opp_r.
Qed.

Lemma mul_opp_l (a b : float) : (- a * b = - (a * b))%float.
Proof.
  apply Prim2SF_inj.
  rewrite FloatAxioms.mul_spec, !FloatAxioms.opp_spec, FloatAxioms.mul_spec.
  apply SFmul_opp_l.
Qed.

Lemma opp_involutive (a : float) : (- - a = a)%float.
Proof.
  apply Prim2SF_inj. rewrite !FloatAxioms.opp_spec.
  destruct (Prim2SF a) as [s|s| |s m e]; simpl; rewrite ?negb_involutive;
    reflexivity.
Qed.

Lemma mul_opp_opp (a b : float) : (- a * - b = a * b)%float.
Proof. now rewrite mul_opp_l, mul_opp_r, opp_involutive. Qed.

Lemma div_opp_l (a b : float) : (- a / b = - (a / b))%float.
Proof.
  apply Prim2SF_inj.
  rewrite FloatAxioms.div_spec, !FloatAxioms.opp_spec, FloatAxioms.div_spec.
  apply SFdiv_opp_l.
Qed.

(** *** NaN is absorbing *)

Lemma add_nan_l (a : float) : (nan + a = nan)%float.
Proof.
  apply Prim2SF_inj. rewrite FloatAxioms.add_spec.
  change (Prim2SF nan) with S754_nan. reflexivity.
Qed.

Lemma add_nan_r (a : float) : (a + nan = nan)%float.
Proof.
  apply Prim2SF_inj. rewrite FloatAxioms.add_spec.
  change (Prim2SF nan) with S754_nan.
  destruct (Prim2SF a); reflexivity.
Qed.

Lemma mul_nan_l (a : float) : (nan * a = nan)%float.
Proof.
  apply Prim2SF_inj. rewrite FloatAxioms.mul_spec.
  change (Prim2SF nan) with S754_nan. reflexivity.
Qed.

Lemma mul_nan_r (a : float) : (a * nan = nan)%float.
Proof.
  apply Prim2SF_inj. rewrite FloatAxioms.mul_spec.
  change (Prim2SF nan) with S754_nan.
  destruct (Prim2SF a); reflexivity.
Qed.

Lemma div_nan_l (a : float) : (nan / a = nan)%float.
Proof.
  apply Prim2SF_inj. rewrite FloatAxioms.div_spec.
  change (Prim2SF nan) with S754_nan. reflexivity.
Qed.

Lemma div_nan_r (a : float) : (a / nan = nan)%float.
Proof.
  apply Prim2SF_inj. rewrite FloatAxioms.div_spec.
  change (Prim2SF nan) with S754_nan.
  destruct (Prim2SF a); reflexivity.
Qed.

Lemma sqrt_nan : sqrt nan = nan.
Proof. reflexivity. Qed.

End FloatSym.

(* ====================================================================== *)
(** ** The methods of [particle2], one at a time *)
(* ====================================================================== *)

Module P2Facts.
Import Py.
Local Open Scope py_scope.
Local Open Scope num_scope.

Lemma truediv_nonzero (a b : num) :
  (val b =? 0)%float = false -> a / b = inr (a // b).
Proof.
  intros H. unfold truediv. rewrite H. destruct (coerce _ _); reflexivity.
Qed.

Lemma truediv_numpy (a b : num) :
  coerce (kind_of a) (kind_of b) = NpFloat64 -> a / b = inr (a // b).
Proof. intros H. unfold truediv. rewrite H. reflexivity. Qed.

(** Division either yields the IEEE quotient or is Python's division by a
    zero. *)
Lemma truediv_cases (a b : num) :
  a / b = inr (a // b) \/
  (a / b = inl ZeroDivisionError /\
   kind_of a = PyFloat /\ kind_of b = PyFloat /\ (val b =? 0)%float = true).
Proof.
  unfold truediv.
  destruct (kind_of a) eqn:Ka, (kind_of b) eqn:Kb; simpl; auto.
  destruct (val b =? 0)%float; auto.
Qed.

(** [math.sqrt] of a sum of two squares returns. *)
Lemma norm_returns (px py : num) :
  Spec.norm px py =
  inr (Num PyFloat (sqrt (val px * val px + val py * val py))).
Proof.
  unfold Spec.norm, math_sqrt. cbn [val add mul].
  rewrite FloatFacts.sum_squares_not_neg. reflexivity.
Qed.

Lemma accel_unfold (b : P2.particle2) :
  P2.accel b =
  match P2.fx b * P2.halfdt b / P2.mass b with
  | inl e => Raised e b
  | inr d1 =>
      let b1 := P2.set_vx (P2.vx b + d1) b in
      match P2.fy b * P2.halfdt b / P2.mass b with
      | inl e => Raised e b1
      | inr d2 => Returned tt (P2.set_vy (P2.vy b + d2) b1)
      end
  end.
Proof.
  unfold P2.accel, bind, eval, store.
  destruct (P2.fx b * P2.halfdt b / P2.mass b); [reflexivity|].
  cbn [P2.set_vx P2.fy P2.halfdt P2.mass P2.vy].
  destruct (P2.fy b * P2.halfdt b / P2.mass b); reflexivity.
Qed.

Lemma move_unfold (b : P2.particle2) :
  P2.move b =
  match P2.fx b * P2.dt b * P2.halfdt b / P2.mass b with
  | inl e => Raised e b
  | inr d1 =>
      let b1 := P2.set_x (P2.x b + (P2.vx b * P2.dt b + d1)) b in
      match P2.fy b * P2.dt b * P2.halfdt b / P2.mass b with
      | inl e => Raised e b1
      | inr d2 => Returned tt (P2.set_y (P2.y b + (P2.vy b * P2.dt b + d2)) b1)
      end
  end.
Proof.
  unfold P2.move, bind, eval, store.
  destruct (P2.fx b * P2.dt b * P2.halfdt b / P2.mass b); [reflexivity|].
  cbn [P2.set_x P2.fy P2.dt P2.halfdt P2.mass P2.y P2.vy].
  destruct (P2.fy b * P2.dt b * P2.halfdt b / P2.mass b); reflexivity.
Qed.

Lemma get_force_unfold (GM : float) (b : P2.particle2) :
  P2.get_force GM b =
  match Spec.norm (P2.x b) (P2.y b) with
  | inl e => Raised e b
  | inr r =>
      match - lit GM * P2.mass b * P2.x b / (r * r * r) with
      | inl e => Raised e b
      | inr f1 =>
          match - lit GM * P2.mass b * P2.y b / (r * r * r) with
          | inl e => Raised e (P2.set_fx f1 b)
          | inr f2 => Returned tt (P2.set_fy f2 (P2.set_fx f1 b))
          end
      end
  end.
Proof.
  unfold P2.get_force, bind, eval, store, Spec.norm.
  destruct (math_sqrt _); [reflexivity|].
  destruct (_ / _); [reflexivity|].
  cbn [P2.set_fx P2.mass P2.y].
  destruct (_ / _); reflexivity.
Qed.

(** The four calls of [verlet2], chained on their outcomes. *)
Lemma verlet2_unfold (GM : float) (b : P2.particle2) :
  P2.verlet2 GM b =
  match P2.move b with
  | Raised e s => Raised e s
  | Returned _ b1 =>
      match P2.accel b1 with
      | Raised e s => Raised e s
      | Returned _ b2 =>
          match P2.get_force GM b2 with
          | Raised e s => Raised e s
          | Returned _ b3 => P2.accel b3
          end
      end
  end.
Proof. reflexivity. Qed.

(** [get_force] computes the specification's central force: it returns
    exactly when that force is defined, and then stores it. *)
Lemma get_force_central (GM : float) (b : P2.particle2) (F1 F2 : num) :
  Spec.central_force GM (P2.mass b) (P2.x b) (P2.y b) = inr (F1, F2) ->
  P2.get_force GM b = Returned tt (P2.set_fy F2 (P2.set_fx F1 b)).
Proof.
  rewrite get_force_unfold. unfold Spec.central_force, rbind.
  destruct (Spec.norm _ _) as [e|r]; [discriminate|].
  destruct (_ / _) as [e|f1]; [discriminate|].
  destruct (_ / _) as [e|f2]; [discriminate|].
  intros [= -> ->]. reflexivity.
Qed.

Lemma get_force_returned (GM : float) (b b' : P2.particle2) :
  P2.get_force GM b = Returned tt b' ->
  exists F1 F2,
    Spec.central_force GM (P2.mass b) (P2.x b) (P2.y b) = inr (F1, F2) /\
    b' = P2.set_fy F2 (P2.set_fx F1 b).
Proof.
  rewrite get_force_unfold. unfold Spec.central_force, rbind.
  destruct (Spec.norm _ _) as [e|r]; [discriminate|].
  destruct (_ / _) as [e|f1]; [discriminate|].
  destruct (_ / _) as [e|f2]; [discriminate|].
  intros [= <-]. eauto.
Qed.

(** When the central force is not defined, [get_force] raises the
    division's exception and keeps mass and position. *)
Lemma get_force_raised (GM : float) (b : P2.particle2) (e : exn) :
  Spec.central_force GM (P2.mass b) (P2.x b) (P2.y b) = inl e ->
  exists s, P2.get_force GM b = Raised e s /\
            P2.mass s = P2.mass b /\ P2.x s = P2.x b /\ P2.y s = P2.y b /\
            P2.vx s = P2.vx b /\ P2.vy s = P2.vy b /\
            P2.dt s = P2.dt b /\ P2.halfdt s = P2.halfdt b.
Proof.
  rewrite get_force_unfold. unfold Spec.central_force, rbind.
  destruct (Spec.norm _ _) as [e0|r].
  { intros [= ->]. exists b. auto 10. }
  destruct (_ / _) as [e0|f1].
  { intros [= ->]. exists b. auto 10. }
  destruct (_ / _) as [e0|f2]; [|discriminate].
  intros [= ->]. exists (P2.set_fx f1 b). auto 10.
Qed.

(** The central force fails in one way only. *)
Lemma central_force_error (GM : float) (m px py : num) (e : exn) :
  Spec.central_force GM m px py = inl e -> e = ZeroDivisionError.
Proof.
  unfold Spec.central_force. rewrite norm_returns. cbn [rbind].
  set (r := Num PyFloat _).
  destruct (truediv_cases (- lit GM * m * px) (r * r * r)) as [->|[-> _]];
    cbn [rbind]; [|congruence].
  destruct (truediv_cases (- lit GM * m * py) (r * r * r)) as [->|[-> _]];
    cbn [rbind]; congruence.
Qed.

(** *** Frame properties, on the state a call exits with *)

Lemma accel_frame (b : P2.particle2) :
  let b' := exit_state (P2.accel b) in
  P2.mass b' = P2.mass b /\ P2.dt b' = P2.dt b /\
  P2.halfdt b' = P2.halfdt b /\
  P2.x b' = P2.x b /\ P2.y b' = P2.y b /\
  P2.fx b' = P2.fx b /\ P2.fy b' = P2.fy b.
Proof.
  rewrite accel_unfold.
  destruct (_ / _); [cbn; auto 10|].
  destruct (_ / _); cbn; auto 10.
Qed.

Lemma move_frame (b : P2.particle2) :
  let b' := exit_state (P2.move b) in
  P2.mass b' = P2.mass b /\ P2.dt b' = P2.dt b /\
  P2.halfdt b' = P2.halfdt b /\
  P2.vx b' = P2.vx b /\ P2.vy b' = P2.vy b /\
  P2.fx b' = P2.fx b /\ P2.fy b' = P2.fy b.
Proof.
  rewrite move_unfold.
  destruct (_ / _); [cbn; auto 10|].
  destruct (_ / _); cbn; auto 10.
Qed.

Lemma get_force_frame (GM : float) (b : P2.particle2) :
  let b' := exit_state (P2.get_force GM b) in
  P2.mass b' = P2.mass b /\ P2.dt b' = P2.dt b /\
  P2.halfdt b' = P2.halfdt b /\
  P2.x b' = P2.x b /\ P2.y b' = P2.y b /\
  P2.vx b' = P2.vx b /\ P2.vy b' = P2.vy b.
Proof.
  rewrite get_force_unfold.
  destruct (Spec.norm _ _); [cbn; auto 10|].
  destruct (_ / _); [cbn; auto 10|].
  destruct (_ / _); cbn; auto 10.
Qed.

Lemma verlet2_frame (GM : float) (b : P2.particle2) :
  let b' := exit_state (P2.verlet2 GM b) in
  P2.mass b' = P2.mass b /\ P2.dt b' = P2.dt b /\
  P2.halfdt b' = P2.halfdt b.
Proof.
  rewrite verlet2_unfold.
  destruct (move_frame b) as (Hm1 & Hm2 & Hm3 & _).
  destruct (P2.move b) as [[] b1|e s]; cbn in *; [|tauto].
  destruct (accel_frame b1) as (Ha1 & Ha2 & Ha3 & _).
  destruct (P2.accel b1) as [[] b2|e s]; cbn in *;
    [|repeat split; congruence].
  destruct (get_force_frame GM b2) as (Hg1 & Hg2 & Hg3 & _).
  destruct (P2.get_force GM b2) as [[] b3|e s]; cbn in *;
    [|repeat split; congruence].
  destruct (accel_frame b3) as (Hb1 & Hb2 & Hb3 & _).
  cbn in *. repeat split; congruence.
Qed.

(** *** When the calls return *)

Lemma accel_returns (b : P2.particle2) :
  (val (P2.mass b) =? 0)%float = false ->
  P2.accel b = Returned tt (Spec.kicked b).
Proof.
  intros H. rewrite accel_unfold, !truediv_nonzero by assumption.
  reflexivity.
Qed.

Lemma move_returns (b : P2.particle2) :
  (val (P2.mass b) =? 0)%float = false ->
  P2.move b = Returned tt (Spec.drifted b).
Proof.
  intros H. rewrite move_unfold, !truediv_nonzero by assumption.
  reflexivity.
Qed.

Lemma accel_returns_numpy (b : P2.particle2) :
  kind_of (P2.fx b) = NpFloat64 -> kind_of (P2.fy b) = NpFloat64 ->
  P2.accel b = Returned tt (Spec.kicked b).
Proof.
  intros H1 H2. rewrite accel_unfold, !truediv_numpy; [reflexivity| |];
    cbn; rewrite ?H1, ?H2; reflexivity.
Qed.

Lemma move_returns_numpy (b : P2.particle2) :
  kind_of (P2.fx b) = NpFloat64 -> kind_of (P2.fy b) = NpFloat64 ->
  P2.move b = Returned tt (Spec.drifted b).
Proof.
  intros H1 H2. rewrite move_unfold, !truediv_numpy; [reflexivity| |];
    cbn; rewrite ?H1, ?H2; reflexivity.
Qed.

(** *** One call of [verlet2] *)

(** With a non-zero mass the step returns exactly when the central force
    at the drifted position is defined; the state it returns is the drift,
    the half kick with the old force, the new force, and the half kick
    with the new force. *)
Lemma verlet2_returns (GM : float) (b : P2.particle2) (F : num * num) :
  (val (P2.mass b) =? 0)%float = false ->
  Spec.central_force GM (P2.mass b)
    (P2.x (Spec.drifted b)) (P2.y (Spec.drifted b)) = inr F ->
  P2.verlet2 GM b =
  Returned tt
    (Spec.kicked (Spec.with_force F (Spec.kicked (Spec.drifted b)))).
Proof.
  intros Hm HF. destruct F as [F1 F2].
  rewrite verlet2_unfold, move_returns by assumption.
  rewrite accel_returns by assumption.
  rewrite (get_force_central GM _ F1 F2) by exact HF.
  rewrite accel_returns by assumption. reflexivity.
Qed.

Lemma verlet2_raises (GM : float) (b : P2.particle2) (e : exn) :
  (val (P2.mass b) =? 0)%float = false ->
  Spec.central_force GM (P2.mass b)
    (P2.x (Spec.drifted b)) (P2.y (Spec.drifted b)) = inl e ->
  exists s, P2.verlet2 GM b = Raised e s /\
            P2.mass s = P2.mass b /\
            P2.x s = P2.x (Spec.drifted b) /\
            P2.y s = P2.y (Spec.drifted b).
Proof.
  intros Hm HF.
  rewrite verlet2_unfold, move_returns by assumption.
  rewrite accel_returns by assumption.
  destruct (get_force_raised GM (Spec.kicked (Spec.drifted b)) e HF)
    as (s & -> & H1 & H2 & H3 & _).
  exists s. auto.
Qed.

(** Whenever the step returns, the force it leaves is the central force
    at the position it leaves. *)
Lemma verlet2_returned_fresh (GM : float) (b b' : P2.particle2) :
  P2.verlet2 GM b = Returned tt b' -> Spec.fresh GM b'.
Proof.
  rewrite verlet2_unfold.
  destruct (P2.move b) as [[] b1|]; [|discriminate].
  destruct (P2.accel b1) as [[] b2|]; [|discriminate].
  destruct (P2.get_force GM b2) as [[] b3|] eqn:Hg; [|discriminate].
  apply get_force_returned in Hg as (F1 & F2 & HF & ->).
  intros Ha. pose proof (accel_frame (P2.set_fy F2 (P2.set_fx F1 b2))) as Hfr.
  rewrite Ha in Hfr. cbn in Hfr.
  destruct Hfr as (H1 & _ & _ & H4 & H5 & H6 & H7).
  unfold Spec.fresh. rewrite H1, H4, H5, H6, H7. exact HF.
Qed.

(** *** Bodies whose position is a numpy pair *)

Lemma coerce_numpy_r (k : kind) : coerce k NpFloat64 = NpFloat64.
Proof. destruct k; reflexivity. Qed.

Lemma central_force_numpy (GM : float) (m px py : num) :
  kind_of px = NpFloat64 -> kind_of py = NpFloat64 ->
  exists F1 F2,
    Spec.central_force GM m px py = inr (F1, F2) /\
    kind_of F1 = NpFloat64 /\ kind_of F2 = NpFloat64.
Proof.
  intros Hx Hy. unfold Spec.central_force.
  rewrite norm_returns. cbn [rbind].
  set (r := Num PyFloat _).
  rewrite (truediv_numpy (- lit GM * m * px)),
    (truediv_numpy (- lit GM * m * py));
    cbn [rbind]; [| cbn; rewrite ?Hx, ?Hy, coerce_numpy_r; reflexivity ..].
  eexists _, _. split; [reflexivity|].
  cbn. rewrite Hx, Hy, coerce_numpy_r. auto.
Qed.

(** A numpy body is stepped without any exception, and stays a numpy
    body. *)
Lemma verlet2_numpy (GM : float) (b : P2.particle2) :
  Spec.numpy_body b ->
  exists b', P2.verlet2 GM b = Returned tt b' /\
             Spec.numpy_body b' /\ Spec.fresh GM b'.
Proof.
  intros (Hx & Hy & Hfx & Hfy).
  destruct (central_force_numpy GM (P2.mass b)
              (P2.x (Spec.drifted b)) (P2.y (Spec.drifted b)))
    as (F1 & F2 & HF & HF1 & HF2).
  { cbn. rewrite Hx. reflexivity. }
  { cbn. rewrite Hy. reflexivity. }
  assert (P2.verlet2 GM b =
          Returned tt (Spec.kicked (Spec.with_force (F1, F2)
                         (Spec.kicked (Spec.drifted b))))) as Hrun.
  { rewrite verlet2_unfold, move_returns_numpy by assumption.
    rewrite accel_returns_numpy by assumption.
    rewrite (get_force_central GM _ F1 F2) by exact HF.
    rewrite accel_returns_numpy by assumption. reflexivity. }
  eexists. split; [exact Hrun|]. split.
  - repeat split; cbn; rewrite ?Hx, ?Hy; auto.
  - eapply verlet2_returned_fresh, Hrun.
Qed.

End P2Facts.

(* ====================================================================== *)
(** ** The driver cell, phase by phase *)
(* ====================================================================== *)

Module DriverFacts.
Import Py.
Local Open Scope py_scope.
Local Open Scope num_scope.

Lemma bind_run {S A B} (c : M S A) (k : A -> M S B) (s : S) :
  bind c k s =
  match c s with
  | Returned a s' => k a s'
  | Raised e s' => Raised e s'
  end.
Proof. reflexivity. Qed.

(** Reading the fields of a state written out field by field. *)
Ltac fields :=
  cbn [Driver.x Driver.y Driver.vx Driver.vy Driver.energy
       Driver.planets Driver.globals P2.g_fx P2.g_fy].

(** Running the next [eval] of a sequence of statements. *)
Ltac next_eval := rewrite bind_run; unfold eval at 1; fields.

Lemma np_zeros_ok (rows cols : Z) :
  (0 <= rows)%Z -> (0 <= cols)%Z ->
  Driver.np_zeros rows cols
  = inr (replicate (Z.to_nat rows) (replicate (Z.to_nat cols) 0%float)).
Proof.
  intros Hr Hc. unfold Driver.np_zeros.
  destruct (Z.ltb_spec rows 0); [lia|].
  destruct (Z.ltb_spec cols 0); [lia|]. reflexivity.
Qed.

Lemma setitem_middle (pre : list (list float)) (row : list float)
    (post : list (list float)) (i n : nat) (v : num) :
  length pre = i -> n < length row ->
  Driver.setitem i n v (pre ++ row :: post)
  = inr (pre ++ <[n := val v]> row :: post).
Proof.
  intros Hi Hn. unfold Driver.setitem.
  rewrite list_lookup_middle by (symmetry; exact Hi).
  destruct (lookup_lt_is_Some_2 row n Hn) as [old ->].
  rewrite <- Hi, insert_app_r_alt, Nat.sub_diag by lia. reflexivity.
Qed.

Lemma assign_row get set i n e v (pre : list (list float)) row post st :
  e st = inr v -> get st = pre ++ row :: post ->
  length pre = i -> n < length row ->
  Driver.assign get set i n e st
  = Returned tt (set (pre ++ <[n := val v]> row :: post) st).
Proof.
  intros He Hg Hi Hn. unfold Driver.assign.
  rewrite bind_run. unfold eval at 1. rewrite He.
  rewrite bind_run. unfold eval at 1.
  rewrite Hg, (setitem_middle _ _ _ i) by assumption.
  reflexivity.
Qed.

Section Script.

Variable GM : float.
Variable float_pow : float -> float -> result float.
Variables (m1 r1 v1 m2 r2 v2 dt : float) (nsteps : Z).

(** *** Stepping numpy bodies *)

Lemma built_numpy m px py pvx pvy :
  Spec.numpy_body (Spec.built GM m px py pvx pvy dt).
Proof. repeat split. Qed.

Lemma built_fresh m px py pvx pvy :
  Spec.fresh GM (Spec.built GM m px py pvx pvy dt).
Proof.
  unfold Spec.fresh, Spec.central_force. rewrite P2Facts.norm_returns.
  cbn [rbind]. rewrite !P2Facts.truediv_numpy by reflexivity. reflexivity.
Qed.

(** Any number of steps of a numpy body return, and [after] is the state
    they return. *)
Lemma steps_numpy k b :
  Spec.numpy_body b ->
  Spec.steps GM k b = Returned tt (Spec.after GM k b) /\
  Spec.numpy_body (Spec.after GM k b).
Proof.
  intros Hb.
  induction k as [|k [IH1 IH2]]; [split; [reflexivity | exact Hb]|].
  destruct (P2Facts.verlet2_numpy GM _ IH2) as (b' & Hrun & Hnp & _).
  assert (Spec.steps GM (S k) b = Returned tt b') as H.
  { cbn [Spec.steps]. rewrite bind_run, IH1. exact Hrun. }
  split; [rewrite H; unfold Spec.after; rewrite H; reflexivity|].
  unfold Spec.after. rewrite H. exact Hnp.
Qed.

Lemma after_S k b :
  Spec.numpy_body b ->
  P2.verlet2 GM (Spec.after GM k b) = Returned tt (Spec.after GM (S k) b).
Proof.
  intros Hb. destruct (steps_numpy k b Hb) as [H1 H2].
  destruct (steps_numpy (S k) b Hb) as [H3 _].
  cbn [Spec.steps] in H3. rewrite bind_run, H1 in H3.
  destruct (P2.verlet2 GM (Spec.after GM k b)) as [[] s|e s]; congruence.
Qed.

(** *** The set-up: arrays, initial conditions, planets *)

Lemma build_returns i m px py pvx pvy X Y VX VY E pl g :
  [m1; m2] !! i = Some m ->
  Driver.getitem X 0 i = inr (Num NpFloat64 px) ->
  Driver.getitem Y 0 i = inr (Num NpFloat64 py) ->
  Driver.getitem VX 0 i = inr (Num NpFloat64 pvx) ->
  Driver.getitem VY 0 i = inr (Num NpFloat64 pvy) ->
  is_Some (pl !! i) ->
  Driver.build GM m1 m2 dt i (Driver.State X Y VX VY E pl g)
  = Returned tt
      (Driver.State X Y VX VY E
         (<[i := Driver.Object (Spec.built GM m px py pvx pvy dt)]> pl)
         (P2.Globals (Some (P2.fx (Spec.built GM m px py pvx pvy dt)))
                     (Some (P2.fy (Spec.built GM m px py pvx pvy dt))))).
Proof.
  intros Hm HX HY HVX HVY [old Hold].
  assert (Hlt : i < length pl) by (eapply lookup_lt_Some; eauto).
  unfold Driver.build.
  (* the constructor call *)
  next_eval. unfold Driver.index. rewrite Hm.
  next_eval. rewrite HX.
  next_eval. rewrite HY.
  next_eval. rewrite HVX.
  next_eval. rewrite HVY.
  next_eval. unfold P2.__init__.
  rewrite P2Facts.truediv_nonzero by reflexivity. cbn [rbind].
  rewrite bind_run. unfold Driver.setplanet at 1. fields. rewrite Hold.
  unfold Driver.set_planets. fields.
  (* r *)
  next_eval. unfold Driver.planet. fields.
  rewrite list_lookup_insert_eq by exact Hlt. cbn [rbind P2.x P2.y].
  fold (Spec.norm (Num NpFloat64 px) (Num NpFloat64 py)).
  rewrite P2Facts.norm_returns. cbn [val].
  (* fx, fy *)
  next_eval. rewrite list_lookup_insert_eq by exact Hlt.
  cbn [rbind P2.x P2.y P2.mass].
  rewrite P2Facts.truediv_numpy by reflexivity.
  rewrite bind_run. unfold store at 1. unfold Driver.set_globals. fields.
  next_eval. rewrite list_lookup_insert_eq by exact Hlt.
  cbn [rbind P2.x P2.y P2.mass].
  rewrite P2Facts.truediv_numpy by reflexivity.
  rewrite bind_run. unfold store at 1. fields.
  (* planets[i].fx = fx *)
  next_eval.
  rewrite bind_run. unfold Driver.call at 1, Driver.planet. fields.
  rewrite list_lookup_insert_eq by exact Hlt. unfold store at 1.
  unfold Driver.set_planets. fields. rewrite list_insert_insert_eq.
  (* planets[i].fy = fy *)
  next_eval.
  unfold Driver.call, Driver.planet. fields.
  rewrite list_lookup_insert_eq by exact Hlt. unfold store.
  unfold Driver.set_planets. fields. rewrite list_insert_insert_eq.
  reflexivity.
Qed.

Section Energies.

Variables (e1 e2 : num).
Hypothesis He1 : Driver.energy0 GM float_pow v1 r1 = inr e1.
Hypothesis He2 : Driver.energy0 GM float_pow v2 r2 = inr e2.

Let P : P2.particle2 := Spec.built GM m1 r1 0 0 v1 dt.
Let Q : P2.particle2 := Spec.built GM m2 r2 0 0 v2 dt.
Let g : P2.globals := P2.Globals (Some (P2.fx Q)) (Some (P2.fy Q)).

Lemma allocate_returns k :
  Z.to_nat nsteps = S k ->
  Driver.allocate 2 nsteps Driver.fresh_state
  = Returned tt
      (Driver.State (Spec.zeros (S k)) (Spec.zeros (S k)) (Spec.zeros (S k))
         (Spec.zeros (S k)) (Spec.zeros (S k)) [] (P2.Globals None None)).
Proof.
  intros Hk. unfold Driver.allocate, bind, eval, store.
  rewrite np_zeros_ok by lia. rewrite Hk. reflexivity.
Qed.

Lemma initial_conditions_returns k pl g0 :
  Driver.initial_conditions GM float_pow r1 v1 r2 v2
    (Driver.State (Spec.zeros (S k)) (Spec.zeros (S k)) (Spec.zeros (S k))
       (Spec.zeros (S k)) (Spec.zeros (S k)) pl g0)
  = Returned tt
      (Driver.State ([r1; r2] :: Spec.zeros k)
         ([0%float; 0%float] :: Spec.zeros k)
         ([0%float; 0%float] :: Spec.zeros k)
         ([v1; v2] :: Spec.zeros k)
         ([val e1; val e2] :: Spec.zeros k) pl g0).
Proof.
  unfold Driver.initial_conditions, Driver.assign, bind, eval, store.
  rewrite He1, He2. reflexivity.
Qed.

(** The set-up returns with row 0 of every array filled and both planets
    built, none stepped yet. *)
Lemma setup_returns k :
  Z.to_nat nsteps = S k ->
  Driver.setup GM float_pow 2 m1 r1 v1 m2 r2 v2 dt nsteps Driver.fresh_state
  = Returned tt
      (Spec.traj_state GM P Q ([val e1; val e2] :: Spec.zeros k) g 0 k).
Proof.
  intros Hk. unfold Driver.setup.
  rewrite bind_run, (allocate_returns k Hk).
  rewrite bind_run, initial_conditions_returns.
  rewrite bind_run.
  change (Driver.make_list 2 ?st)
    with (Returned tt (Driver.set_planets
                         [Driver.ClassList; Driver.ClassList] st)).
  unfold Driver.set_planets. fields.
  unfold Driver.build_all. change (range 0 2) with [0; 1]. cbn [for_].
  rewrite bind_run.
  rewrite (build_returns 0 m1 r1 0 0 v1)
    by (try reflexivity; eexists; reflexivity).
  rewrite bind_run.
  rewrite (build_returns 1 m2 r2 0 0 v2)
    by (try reflexivity; eexists; reflexivity).
  reflexivity.
Qed.

(** *** The stepping loop *)

Lemma rows_length f A B k : length (Spec.rows GM f A B k) = k.
Proof. unfold Spec.rows. now rewrite length_map, length_seq. Qed.

Lemma rows_S f A B k :
  Spec.rows GM f A B (S k)
  = Spec.rows GM f A B k ++ [Spec.row_of GM f A B k].
Proof. unfold Spec.rows. rewrite seq_S, map_app. reflexivity. Qed.

(** One turn of the inner loop: the planet is stepped and its four
    numbers are written into row [i], column [n]. *)
Lemma step_and_record_returns i n p p'
    (prex prey prevx prevy : list (list float)) rx ry rvx rvy
    (postx posty postvx postvy E : list (list float)) pl g0 :
  pl !! n = Some (Driver.Object p) -> P2.verlet2 GM p = Returned tt p' ->
  length prex = i -> length prey = i ->
  length prevx = i -> length prevy = i ->
  n < length rx -> n < length ry -> n < length rvx -> n < length rvy ->
  Driver.step_and_record GM i n
    (Driver.State (prex ++ rx :: postx) (prey ++ ry :: posty)
                  (prevx ++ rvx :: postvx) (prevy ++ rvy :: postvy) E pl g0)
  = Returned tt
      (Driver.State (prex ++ <[n := val (P2.x p')]> rx :: postx)
                    (prey ++ <[n := val (P2.y p')]> ry :: posty)
                    (prevx ++ <[n := val (P2.vx p')]> rvx :: postvx)
                    (prevy ++ <[n := val (P2.vy p')]> rvy :: postvy)
                    E (<[n := Driver.Object p']> pl) g0).
Proof.
  intros Hpl Hrun Hx Hy Hvx Hvy Hnx Hny Hnvx Hnvy.
  assert (n < length pl) as Hlt by (eapply lookup_lt_Some; eauto).
  unfold Driver.step_and_record.
  rewrite bind_run.
  assert (Driver.call n (P2.verlet2 GM)
            (Driver.State (prex ++ rx :: postx) (prey ++ ry :: posty)
               (prevx ++ rvx :: postvx) (prevy ++ rvy :: postvy) E pl g0)
          = Returned tt
              (Driver.State (prex ++ rx :: postx) (prey ++ ry :: posty)
                 (prevx ++ rvx :: postvx) (prevy ++ rvy :: postvy) E
                 (<[n := Driver.Object p']> pl) g0)) as ->.
  { unfold Driver.call, Driver.planet. fields.
    rewrite Hpl, Hrun. reflexivity. }
  assert (forall X Y VX VY,
            Driver.planet n
              (Driver.State X Y VX VY E (<[n := Driver.Object p']> pl) g0)
            = inr p') as Hp.
  { intros. unfold Driver.planet. fields.
    rewrite list_lookup_insert_eq by exact Hlt. reflexivity. }
  rewrite bind_run.
  rewrite (assign_row Driver.x Driver.set_x i n _ (P2.x p') prex rx postx);
    [| rewrite Hp; reflexivity | reflexivity | assumption | assumption].
  unfold Driver.set_x. fields.
  rewrite bind_run.
  rewrite (assign_row Driver.y Driver.set_y i n _ (P2.y p') prey ry posty);
    [| rewrite Hp; reflexivity | reflexivity | assumption | assumption].
  unfold Driver.set_y. fields.
  rewrite bind_run.
  rewrite (assign_row Driver.vx Driver.set_vx i n _ (P2.vx p')
             prevx rvx postvx);
    [| rewrite Hp; reflexivity | reflexivity | assumption | assumption].
  unfold Driver.set_vx. fields.
  rewrite (assign_row Driver.vy Driver.set_vy i n _ (P2.vy p')
             prevy rvy postvy);
    [| rewrite Hp; reflexivity | reflexivity | assumption | assumption].
  reflexivity.
Qed.

(** One turn of the outer loop records one more row. *)
Lemma step_rows A B E g0 k rest :
  Spec.numpy_body A -> Spec.numpy_body B ->
  for_ (range 0 2) (fun n => Driver.step_and_record GM (S k) n)
       (Spec.traj_state GM A B E g0 k (S rest))
  = Returned tt (Spec.traj_state GM A B E g0 (S k) rest).
Proof.
  intros HA HB. change (range 0 2) with [0; 1]. cbn [for_].
  unfold Spec.traj_state, Spec.zeros. cbn [replicate].
  rewrite bind_run.
  erewrite (step_and_record_returns (S k) 0 (Spec.after GM k A)
              (Spec.after GM (S k) A));
    [| reflexivity | now apply after_S
     | apply rows_length | apply rows_length
     | apply rows_length | apply rows_length
     | cbn; lia | cbn; lia | cbn; lia | cbn; lia].
  cbn [insert list_insert].
  rewrite bind_run.
  erewrite (step_and_record_returns (S k) 1 (Spec.after GM k B)
              (Spec.after GM (S k) B));
    [| reflexivity | now apply after_S
     | apply rows_length | apply rows_length
     | apply rows_length | apply rows_length
     | cbn; lia | cbn; lia | cbn; lia | cbn; lia].
  cbn [insert list_insert]. unfold ret.
  rewrite !(rows_S _ A B (S k)), <- !app_assoc. reflexivity.
Qed.

Lemma stepping_rows A B E g0 rest : forall k,
  Spec.numpy_body A -> Spec.numpy_body B ->
  for_ (seq (S k) rest)
       (fun i => for_ (range 0 2) (fun n => Driver.step_and_record GM i n))
       (Spec.traj_state GM A B E g0 k rest)
  = Returned tt (Spec.traj_state GM A B E g0 (k + rest) 0).
Proof.
  induction rest as [|rest IH]; intros k HA HB.
  - rewrite Nat.add_0_r. reflexivity.
  - cbn [seq for_]. rewrite bind_run, step_rows by assumption.
    rewrite IH by assumption. now rewrite Nat.add_succ_r.
Qed.

(** The whole run, for two planets and at least one row. *)
Lemma run_returns k :
  Z.to_nat nsteps = S k ->
  Driver.run GM float_pow 2 m1 r1 v1 m2 r2 v2 dt nsteps
  = Returned tt
      (Spec.traj_state GM P Q ([val e1; val e2] :: Spec.zeros k) g k 0).
Proof.
  intros Hk. unfold Driver.run. rewrite bind_run, (setup_returns k Hk).
  unfold Driver.stepping, range. rewrite Hk.
  replace (S k - 1)%nat with k by lia.
  pose proof (stepping_rows P Q ([val e1; val e2] :: Spec.zeros k) g k 0
                (built_numpy _ _ _ _ _) (built_numpy _ _ _ _ _)) as H.
  cbn [Nat.add] in H. rewrite <- H. reflexivity.
Qed.

(** *** What the final state records *)

Lemma rows_lookup f A B k i :
  i < k -> Spec.rows GM f A B k !! i = Some (Spec.row_of GM f A B i).
Proof.
  intros Hi. unfold Spec.rows.
  rewrite list_lookup_fmap, lookup_seq_lt by exact Hi. reflexivity.
Qed.

Lemma rows_shape f A B k :
  Spec.has_shape (Spec.rows GM f A B k ++ Spec.zeros 0) k 2.
Proof.
  unfold Spec.zeros. cbn [replicate]. rewrite app_nil_r. split.
  - apply rows_length.
  - unfold Spec.rows. apply Forall_fmap, Forall_forall. intros; reflexivity.
Qed.

Lemma traj_state_recorded A B E g0 k i :
  i <= k ->
  Spec.recorded (Spec.traj_state GM A B E g0 k 0) i 0
  = Some (Spec.sample (Spec.after GM i A)) /\
  Spec.recorded (Spec.traj_state GM A B E g0 k 0) i 1
  = Some (Spec.sample (Spec.after GM i B)).
Proof.
  intros Hi. unfold Spec.recorded, Spec.traj_state. fields.
  unfold Spec.zeros. cbn [replicate]. rewrite !app_nil_r.
  rewrite !rows_lookup by lia. split; reflexivity.
Qed.

(** The run returns; the arrays have [nsteps] rows of two columns; row 0
    holds the initial conditions, row [i] the two planets after [i] steps
    each; and the planets end after [nsteps - 1] steps. *)
Lemma run_recorded :
  (1 <= nsteps)%Z ->
  let n := Z.to_nat nsteps in
  exists st,
    Driver.run GM float_pow 2 m1 r1 v1 m2 r2 v2 dt nsteps = Returned tt st /\
    (Spec.has_shape (Driver.x st) n 2 /\ Spec.has_shape (Driver.y st) n 2 /\
     Spec.has_shape (Driver.vx st) n 2 /\ Spec.has_shape (Driver.vy st) n 2) /\
    (Spec.recorded st 0 0 = Some (r1, 0%float, 0%float, v1) /\
     Spec.recorded st 0 1 = Some (r2, 0%float, 0%float, v2)) /\
    (forall i, (i < n)%nat ->
       Spec.steps GM i P = Returned tt (Spec.after GM i P) /\
       Spec.recorded st i 0 = Some (Spec.sample (Spec.after GM i P)) /\
       Spec.steps GM i Q = Returned tt (Spec.after GM i Q) /\
       Spec.recorded st i 1 = Some (Spec.sample (Spec.after GM i Q))) /\
    Driver.planets st
    = [Driver.Object (Spec.after GM (n - 1) P);
       Driver.Object (Spec.after GM (n - 1) Q)].
Proof.
  intros Hn n. subst n.
  destruct (Z.to_nat nsteps) as [|k] eqn:Hk; [lia|].
  eexists. split; [exact (run_returns k Hk)|].
  split; [repeat split; apply rows_length || apply rows_shape|].
  split; [apply (traj_state_recorded P Q _ _ k 0); lia|].
  split.
  - intros i Hi.
    destruct (traj_state_recorded P Q ([val e1; val e2] :: Spec.zeros k)
                g k i) as [H0 H1]; [lia|].
    split; [apply steps_numpy, built_numpy|].
    split; [exact H0|].
    split; [apply steps_numpy, built_numpy | exact H1].
  - cbn [Spec.traj_state Driver.planets].
    replace (S k - 1)%nat with k by lia. reflexivity.
Qed.

End Energies.

End Script.

End DriverFacts.

(* ====================================================================== *)
(** ** Properties of the class *)
(* ====================================================================== *)

Module P2Props.
Import Py.
Local Open Scope py_scope.
Local Open Scope num_scope.

(** Two floats with different representations are different. *)
Lemma float_neq (a b : float) : Prim2SF a <> Prim2SF b -> a <> b.
Proof. intros H ->. now apply H. Qed.

(** C2, as the code has it: for every body for which [r * r * r] is not
    zero in binary64, where [r = sqrt(x*x + y*y)], [get_force] returns
    having set the stored force to [-GM * mass * position / (r*r*r)]
    componentwise, and having changed nothing else. *)
Theorem get_force_sets_central_force (GM : float) (b : P2.particle2) :
  (val (Spec.cube (Spec.radius (P2.x b) (P2.y b))) =? 0)%float = false ->
  P2.get_force GM b =
  Returned tt
    (Spec.with_force
       (- lit GM * P2.mass b * P2.x b
          // Spec.cube (Spec.radius (P2.x b) (P2.y b)),
        - lit GM * P2.mass b * P2.y b
          // Spec.cube (Spec.radius (P2.x b) (P2.y b)))
       b).
Proof.
  intros Hr3.
  rewrite P2Facts.get_force_unfold, P2Facts.norm_returns.
  fold (Spec.radius (P2.x b) (P2.y b)).
  fold (Spec.cube (Spec.radius (P2.x b) (P2.y b))).
  rewrite !P2Facts.truediv_nonzero by exact Hr3.
  reflexivity.
Qed.

(** At the first planet as the driver builds it: [r*r*r = 1], and
    [get_force] returns the planet unchanged, its force being the central
    force already. *)
Lemma get_force_sets_central_force_witness :
  (val (Spec.cube (Spec.radius (P2.x Notebook.planet1)
                               (P2.y Notebook.planet1))) =? 0)%float = false /\
  P2.get_force Notebook.GM Notebook.planet1 = Returned tt Notebook.planet1.
Proof.
  split; [vm_compute; reflexivity|].
  rewrite (get_force_sets_central_force Notebook.GM Notebook.planet1)
    by (vm_compute; reflexivity).
  vm_compute. reflexivity.
Defined.

(** C2, the claim as stated fails: [particle2(x=2.**-500)] has
    [|position| = 2.**-500 > 0], yet [r*r*r] underflows to zero and
    [get_force] raises [ZeroDivisionError], leaving the force as it was. *)
Lemma get_force_underflow_raises :
  Spec.norm (P2.x Notebook.tiny) (P2.y Notebook.tiny) = inr (lit 0x1p-500) /\
  (0 <? 0x1p-500)%float = true /\
  P2.get_force Notebook.GM Notebook.tiny
  = Raised ZeroDivisionError Notebook.tiny.
Proof. repeat split; vm_compute; reflexivity. Qed.

(** C4: calling [get_force] twice in a row is the same as calling it
    once, for every body: the two calls in sequence have the outcome of
    one call, and so has a second call made on the state the first one
    exits with. *)
Theorem get_force_idempotent (GM : float) (b : P2.particle2) :
  (P2.get_force GM ;; P2.get_force GM) b = P2.get_force GM b /\
  P2.get_force GM (exit_state (P2.get_force GM b)) = P2.get_force GM b.
Proof.
  unfold bind. rewrite (P2Facts.get_force_unfold GM b).
  destruct (Spec.norm (P2.x b) (P2.y b)) as [e|r] eqn:Hn.
  { cbn [exit_state]. rewrite P2Facts.get_force_unfold, Hn. auto. }
  destruct (- lit GM * P2.mass b * P2.x b / (r * r * r)) as [e|f1] eqn:H1.
  { cbn [exit_state]. rewrite P2Facts.get_force_unfold, Hn, H1. auto. }
  destruct (- lit GM * P2.mass b * P2.y b / (r * r * r)) as [e|f2] eqn:H2;
    cbn [exit_state]; rewrite P2Facts.get_force_unfold; cbn;
    rewrite Hn, H1, H2; auto.
Qed.

(** C8, as the code has it: for every body whose mass and [x] are Python
    floats and whose position is exactly (0, 0), [get_force] raises
    [ZeroDivisionError] at its first division, before any assignment, so
    the body is unchanged. *)
Theorem get_force_origin_raises (GM : float) (b : P2.particle2) :
  kind_of (P2.mass b) = PyFloat -> kind_of (P2.x b) = PyFloat ->
  (val (P2.x b) =? 0)%float = true -> (val (P2.y b) =? 0)%float = true ->
  P2.get_force GM b = Raised ZeroDivisionError b.
Proof.
  intros Km Kx Hx Hy.
  apply FloatFacts.eqb_zero_cases in Hx, Hy.
  rewrite P2Facts.get_force_unfold, P2Facts.norm_returns.
  set (r := Num PyFloat _).
  assert ((val (r * r * r) =? 0)%float = true) as Hr3.
  { unfold r. cbn [val mul].
    destruct Hx as [-> | ->], Hy as [-> | ->]; vm_compute; reflexivity. }
  unfold truediv at 1. cbn [kind_of mul neg lit]. rewrite Km, Kx.
  cbn [coerce]. fold r. rewrite Hr3. reflexivity.
Qed.

(** At [particle2()], which sits at the origin. *)
Lemma get_force_origin_raises_witness :
  (kind_of (P2.mass Notebook.default) = PyFloat /\
   kind_of (P2.x Notebook.default) = PyFloat /\
   (val (P2.x Notebook.default) =? 0)%float = true /\
   (val (P2.y Notebook.default) =? 0)%float = true) /\
  P2.get_force Notebook.GM Notebook.default
  = Raised ZeroDivisionError Notebook.default.
Proof.
  split; [repeat split; reflexivity|].
  apply get_force_origin_raises; reflexivity.
Defined.

(** C8, the claim as stated fails: a body whose position (0, 0) is a pair
    of [numpy.float64] zeros, as the driver's bodies are, is not refused;
    [get_force] returns and the stored force is NaN in both components. *)
Lemma get_force_origin_numpy_returns :
  val (P2.x Notebook.numpy_origin) = 0%float /\
  val (P2.y Notebook.numpy_origin) = 0%float /\
  P2.get_force Notebook.GM Notebook.numpy_origin
  = Returned tt
      (Spec.with_force (Num NpFloat64 nan, Num NpFloat64 nan)
                       Notebook.numpy_origin).
Proof. repeat split; vm_compute; reflexivity. Qed.

(** C9, as the code has it: for every body and every [dt], [verlet(dt)]
    raises while evaluating its first statement, before any assignment:
    [NameError] when [fx] or [fy] is not bound at module level, and
    [TypeError] (arguments passed to the one-parameter [get_force]) when
    both are.  It never returns, and the body is unchanged. *)
Theorem verlet_raises (g : P2.globals) (dt : num) (b : P2.particle2) :
  P2.verlet g dt b =
  Raised (match P2.g_fx g, P2.g_fy g with
          | Some _, Some _ => TypeError
          | _, _ => NameError
          end) b.
Proof.
  unfold P2.verlet, bind, P2.name, P2.get_force_with, raise.
  destruct (P2.g_fx g), (P2.g_fy g); reflexivity.
Qed.

(** C9, the claim as stated fails: once the driver cell has run, [fx] and
    [fy] are bound at module level, and [verlet] fails with [TypeError],
    not with an undefined-name error. *)
Lemma verlet_after_driver_type_error :
  let st := exit_state
              (Driver.run Notebook.GM Notebook.pow Notebook.NPLANETS
                 Notebook.m1 Notebook.r1 Notebook.v1
                 Notebook.m2 Notebook.r2 Notebook.v2 Notebook.dt 2) in
  P2.verlet (Driver.globals st) (lit Notebook.dt) Notebook.planet1
  = Raised TypeError Notebook.planet1 /\
  P2.verlet (Driver.globals st) (lit Notebook.dt) Notebook.planet1
  <> Raised NameError Notebook.planet1.
Proof.
  assert (P2.verlet
            (Driver.globals
               (exit_state
                  (Driver.run Notebook.GM Notebook.pow Notebook.NPLANETS
                     Notebook.m1 Notebook.r1 Notebook.v1
                     Notebook.m2 Notebook.r2 Notebook.v2 Notebook.dt 2)))
            (lit Notebook.dt) Notebook.planet1
          = Raised TypeError Notebook.planet1) as H
    by (vm_compute; reflexivity).
  cbv zeta. rewrite H. split; [reflexivity | discriminate].
Qed.

(** C10: [accel], [move], [get_force] and [verlet2] leave [mass], [dt]
    and [halfdt] as they were, whether they return or raise; [get_force]
    also leaves position and velocity, [accel] position and force, [move]
    velocity and force; and the constructor sets [halfdt] to [dt / 2.]. *)
Theorem methods_frame (GM : float) (b : P2.particle2)
    (m0 x0 y0 vx0 vy0 fx0 fy0 dt0 : num) :
  (let b' := exit_state (P2.accel b) in
   P2.mass b' = P2.mass b /\ P2.dt b' = P2.dt b /\
   P2.halfdt b' = P2.halfdt b /\
   P2.x b' = P2.x b /\ P2.y b' = P2.y b /\
   P2.fx b' = P2.fx b /\ P2.fy b' = P2.fy b) /\
  (let b' := exit_state (P2.move b) in
   P2.mass b' = P2.mass b /\ P2.dt b' = P2.dt b /\
   P2.halfdt b' = P2.halfdt b /\
   P2.vx b' = P2.vx b /\ P2.vy b' = P2.vy b /\
   P2.fx b' = P2.fx b /\ P2.fy b' = P2.fy b) /\
  (let b' := exit_state (P2.get_force GM b) in
   P2.mass b' = P2.mass b /\ P2.dt b' = P2.dt b /\
   P2.halfdt b' = P2.halfdt b /\
   P2.x b' = P2.x b /\ P2.y b' = P2.y b /\
   P2.vx b' = P2.vx b /\ P2.vy b' = P2.vy b) /\
  (let b' := exit_state (P2.verlet2 GM b) in
   P2.mass b' = P2.mass b /\ P2.dt b' = P2.dt b /\
   P2.halfdt b' = P2.halfdt b) /\
  P2.__init__ m0 x0 y0 vx0 vy0 fx0 fy0 dt0
  = inr (P2.Particle2 m0 x0 y0 vx0 vy0 dt0 (dt0 // lit 2) fx0 fy0).
Proof.
  split; [apply P2Facts.accel_frame|].
  split; [apply P2Facts.move_frame|].
  split; [apply P2Facts.get_force_frame|].
  split; [apply P2Facts.verlet2_frame|].
  unfold P2.__init__. rewrite P2Facts.truediv_nonzero by reflexivity.
  reflexivity.
Qed.

(** C1, as the code has it: for every body with mass above zero, when
    the central force at the drifted position is defined, [verlet2] runs
    the drift, the half kick with the old force, one [get_force] at the
    new position and the half kick with the new force, each returning;
    the new position is [x + (v*dt + f_old*dt*halfdt/m)] and the new
    velocity [(v + f_old*halfdt/m) + f_new*halfdt/m], every operation
    rounded to binary64 in this order, with [f_new] the central force at
    the new position, which is also the force stored. *)
Theorem verlet2_step (GM : float) (b : P2.particle2) (F : num * num) :
  (0 <? val (P2.mass b))%float = true ->
  Spec.central_force GM (P2.mass b)
    (P2.x (Spec.drifted b)) (P2.y (Spec.drifted b)) = inr F ->
  let b1 := Spec.drifted b in
  let b2 := Spec.kicked b1 in
  let b3 := Spec.with_force F b2 in
  let b' := Spec.kicked b3 in
  (P2.move b = Returned tt b1 /\
   P2.accel b1 = Returned tt b2 /\
   P2.get_force GM b2 = Returned tt b3 /\
   P2.accel b3 = Returned tt b' /\
   P2.verlet2 GM b = Returned tt b') /\
  (P2.x b' = Spec.drift (P2.x b) (P2.vx b) (P2.fx b)
                        (P2.dt b) (P2.halfdt b) (P2.mass b) /\
   P2.y b' = Spec.drift (P2.y b) (P2.vy b) (P2.fy b)
                        (P2.dt b) (P2.halfdt b) (P2.mass b)) /\
  (P2.vx b' = Spec.half_kick
                (Spec.half_kick (P2.vx b) (P2.fx b) (P2.halfdt b) (P2.mass b))
                (fst F) (P2.halfdt b) (P2.mass b) /\
   P2.vy b' = Spec.half_kick
                (Spec.half_kick (P2.vy b) (P2.fy b) (P2.halfdt b) (P2.mass b))
                (snd F) (P2.halfdt b) (P2.mass b)) /\
  (P2.fx b' = fst F /\ P2.fy b' = snd F /\
   Spec.central_force GM (P2.mass b') (P2.x b') (P2.y b') = inr F).
Proof.
  intros Hm HF. apply FloatFacts.pos_not_zero in Hm. cbv zeta.
  split; [|split; [|split]]; [| split; reflexivity | split; reflexivity |].
  - split; [now apply P2Facts.move_returns|].
    split; [now apply P2Facts.accel_returns|].
    split; [destruct F; now apply P2Facts.get_force_central|].
    split; [now apply P2Facts.accel_returns|].
    now apply P2Facts.verlet2_returns.
  - split; [reflexivity|]. split; [reflexivity|]. destruct F. exact HF.
Qed.

(** At the first planet's second step. *)
Lemma verlet2_step_witness :
  ((0 <? val (P2.mass Notebook.planet1_row1))%float = true /\
   Spec.central_force Notebook.GM (P2.mass Notebook.planet1_row1)
     (P2.x (Spec.drifted Notebook.planet1_row1))
     (P2.y (Spec.drifted Notebook.planet1_row1))
   = inr (P2.fx Notebook.planet1_row2, P2.fy Notebook.planet1_row2)) /\
  P2.verlet2 Notebook.GM Notebook.planet1_row1
  = Returned tt Notebook.planet1_row2.
Proof.
  assert ((0 <? val (P2.mass Notebook.planet1_row1))%float = true) as Hm
    by reflexivity.
  assert (Spec.central_force Notebook.GM (P2.mass Notebook.planet1_row1)
            (P2.x (Spec.drifted Notebook.planet1_row1))
            (P2.y (Spec.drifted Notebook.planet1_row1))
          = inr (P2.fx Notebook.planet1_row2, P2.fy Notebook.planet1_row2))
    as HF by (vm_compute; reflexivity).
  split; [split; assumption|].
  destruct (verlet2_step Notebook.GM Notebook.planet1_row1 _ Hm HF)
    as ((_ & _ & _ & _ & ->) & _).
  vm_compute. reflexivity.
Defined.

(** C1, the claim as stated fails, at two bodies with mass above zero
    whose stored force is the central force at their position and whose
    step does not end at the origin.

    At the first planet's second step the closed forms
    "x + v*Δt + (Δt²/2)*f_old/m" and "v + (Δt/2)*(f_old + f_new)/m",
    evaluated in binary64, give y = 0.012566122564145877 and
    vx = -0.078954497336697266, while the step leaves
    y = 0.012566122564145875 and vx = -0.07895449733669728; and the new
    [y] is not the exact value of its closed form either.

    At the body [fast] the drift is [(2.**57 + 15.6) = 2.**57] and the
    step leaves [x = -9. + 2.**57 = 2.**57 - 16.], while the closed form
    gives [(-9. + 2.**57) + 15.6 = 2.**57] in binary64 and
    [2.**57 + 6.6] exactly. *)
Lemma verlet2_closed_form_rounding :
  ((0 <? val (P2.mass Notebook.planet1_row1))%float = true /\
   Spec.fresh Notebook.GM Notebook.planet1_row1 /\
   P2.verlet2 Notebook.GM Notebook.planet1_row1
   = Returned tt Notebook.planet1_row2 /\
   (Spec.closed_position
      (val (P2.y Notebook.planet1_row1)) (val (P2.vy Notebook.planet1_row1))
      (val (P2.fy Notebook.planet1_row1))
      (val (P2.dt Notebook.planet1_row1))
      (val (P2.mass Notebook.planet1_row1))
    = Notebook.closed_y_row2 /\
    val (P2.y Notebook.planet1_row2) <> Notebook.closed_y_row2) /\
   (Spec.closed_velocity
      (val (P2.vx Notebook.planet1_row1))
      (val (P2.fx Notebook.planet1_row1)) (val (P2.fx Notebook.planet1_row2))
      (val (P2.dt Notebook.planet1_row1))
      (val (P2.mass Notebook.planet1_row1))
    = Notebook.closed_vx_row2 /\
    val (P2.vx Notebook.planet1_row2) <> Notebook.closed_vx_row2) /\
   ~ (Spec.exact (val (P2.y Notebook.planet1_row2))
      == Spec.closed_position_exact
           (Spec.exact (val (P2.y Notebook.planet1_row1)))
           (Spec.exact (val (P2.vy Notebook.planet1_row1)))
           (Spec.exact (val (P2.fy Notebook.planet1_row1)))
           (Spec.exact (val (P2.dt Notebook.planet1_row1)))
           (Spec.exact (val (P2.mass Notebook.planet1_row1))))%Q) /\
  ((0 <? val (P2.mass Notebook.fast))%float = true /\
   Spec.fresh Notebook.GM Notebook.fast /\
   (exists b',
      P2.verlet2 Notebook.GM Notebook.fast = Returned tt b' /\
      val (P2.x b') = 0x1.fffffffffffffp+56%float) /\
   Spec.closed_position
     (val (P2.x Notebook.fast)) (val (P2.vx Notebook.fast))
     (val (P2.fx Notebook.fast))
     (val (P2.dt Notebook.fast)) (val (P2.mass Notebook.fast))
   = 0x1p+57%float /\
   0x1.fffffffffffffp+56%float <> 0x1p+57%float /\
   ~ (Spec.exact 0x1.fffffffffffffp+56
      == Spec.closed_position_exact
           (Spec.exact (val (P2.x Notebook.fast)))
           (Spec.exact (val (P2.vx Notebook.fast)))
           (Spec.exact (val (P2.fx Notebook.fast)))
           (Spec.exact (val (P2.dt Notebook.fast)))
           (Spec.exact (val (P2.mass Notebook.fast))))%Q).
Proof.
  split.
  - split; [reflexivity|].
    split; [vm_compute; reflexivity|].
    split; [vm_compute; reflexivity|].
    split; [split; [vm_compute; reflexivity
                   | apply float_neq; vm_compute; discriminate]|].
    split; [split; [vm_compute; reflexivity
                   | apply float_neq; vm_compute; discriminate]|].
    intros H. apply Qeq_bool_iff in H. vm_compute in H. discriminate.
  - split; [reflexivity|].
    split; [vm_compute; reflexivity|].
    split; [eexists; split; vm_compute; reflexivity|].
    split; [vm_compute; reflexivity|].
    split; [apply float_neq; vm_compute; discriminate|].
    intros H. apply Qeq_bool_iff in H. vm_compute in H. discriminate.
Qed.

End P2Props.

(* ====================================================================== *)
(** ** Properties of the driver *)
(* ====================================================================== *)

Module DriverProps.
Import Py.
Local Open Scope py_scope.
Local Open Scope num_scope.

(** C7: with the notebook's two planets and [nsteps >= 1], the cell runs
    to the end of the stepping loop without an exception; each of the
    four trajectory arrays has exactly [nsteps] rows of two columns; row 0
    holds the initial conditions; row [i] of column [n] holds position and
    velocity of planet [n] as [i] calls of [verlet2] in a row leave it
    (all of them returning); and at the end each planet has been stepped
    [nsteps - 1] times, once per turn of the loop. *)
Theorem run_records_trajectory (GM : float)
    (float_pow : float -> float -> result float)
    (m1 r1 v1 m2 r2 v2 dt : float) (nsteps : Z) (e1 e2 : num) :
  (1 <= nsteps)%Z ->
  Driver.energy0 GM float_pow v1 r1 = inr e1 ->
  Driver.energy0 GM float_pow v2 r2 = inr e2 ->
  let P := Spec.built GM m1 r1 0 0 v1 dt in
  let Q := Spec.built GM m2 r2 0 0 v2 dt in
  let n := Z.to_nat nsteps in
  exists st,
    Driver.run GM float_pow 2 m1 r1 v1 m2 r2 v2 dt nsteps = Returned tt st /\
    (Spec.has_shape (Driver.x st) n 2 /\ Spec.has_shape (Driver.y st) n 2 /\
     Spec.has_shape (Driver.vx st) n 2 /\ Spec.has_shape (Driver.vy st) n 2) /\
    (Spec.recorded st 0 0 = Some (r1, 0%float, 0%float, v1) /\
     Spec.recorded st 0 1 = Some (r2, 0%float, 0%float, v2)) /\
    (forall i, (i < n)%nat ->
       Spec.steps GM i P = Returned tt (Spec.after GM i P) /\
       Spec.recorded st i 0 = Some (Spec.sample (Spec.after GM i P)) /\
       Spec.steps GM i Q = Returned tt (Spec.after GM i Q) /\
       Spec.recorded st i 1 = Some (Spec.sample (Spec.after GM i Q))) /\
    Driver.planets st
    = [Driver.Object (Spec.after GM (n - 1) P);
       Driver.Object (Spec.after GM (n - 1) Q)].
Proof.
  intros Hn He1 He2.
  exact (DriverFacts.run_recorded GM float_pow m1 r1 v1 m2 r2 v2 dt nsteps
           e1 e2 He1 He2 Hn).
Qed.

(** At the notebook's constants: 2000 rows, the first one the initial
    condition. *)
Lemma run_records_trajectory_witness :
  ((1 <= Notebook.nsteps)%Z /\
   Driver.energy0 Notebook.GM Notebook.pow Notebook.v1 Notebook.r1
   = inr (lit 0.5 * lit (Notebook.v1 * Notebook.v1)
          - lit Notebook.GM // lit Notebook.r1) /\
   Driver.energy0 Notebook.GM Notebook.pow Notebook.v2 Notebook.r2
   = inr (lit 0.5 * lit (Notebook.v2 * Notebook.v2)
          - lit Notebook.GM // lit Notebook.r2)) /\
  exists st,
    Driver.run Notebook.GM Notebook.pow 2 Notebook.m1 Notebook.r1 Notebook.v1
      Notebook.m2 Notebook.r2 Notebook.v2 Notebook.dt Notebook.nsteps
    = Returned tt st /\
    Spec.has_shape (Driver.x st) 2000 2 /\
    Spec.recorded st 0 0
    = Some (Notebook.r1, 0%float, 0%float, Notebook.v1).
Proof.
  assert ((1 <= Notebook.nsteps)%Z) as Hn by (unfold Notebook.nsteps; lia).
  assert (Driver.energy0 Notebook.GM Notebook.pow Notebook.v1 Notebook.r1
          = inr (lit 0.5 * lit (Notebook.v1 * Notebook.v1)
                 - lit Notebook.GM // lit Notebook.r1)) as H1
    by (vm_compute; reflexivity).
  assert (Driver.energy0 Notebook.GM Notebook.pow Notebook.v2 Notebook.r2
          = inr (lit 0.5 * lit (Notebook.v2 * Notebook.v2)
                 - lit Notebook.GM // lit Notebook.r2)) as H2
    by (vm_compute; reflexivity).
  split; [auto|].
  destruct (run_records_trajectory Notebook.GM Notebook.pow
              Notebook.m1 Notebook.r1 Notebook.v1
              Notebook.m2 Notebook.r2 Notebook.v2 Notebook.dt
              Notebook.nsteps _ _ Hn H1 H2)
    as (st & Hrun & (Hx & _) & (H0 & _) & _).
  exists st. auto.
Defined.

(** C6, as the code has it: a run whose stepping loop makes no turn is
    the one with [nsteps = 1]; it returns trajectories of one row, the
    initial conditions, and the planets are as they were built, no step
    made.  With [nsteps = 0] the cell raises [IndexError] at its first
    store of an initial condition, before any planet exists, and with
    [NPLANETS = 0] (and any [nsteps >= 0]) it does the same. *)
Theorem run_without_steps (GM : float)
    (float_pow : float -> float -> result float)
    (m1 r1 v1 m2 r2 v2 dt : float) (e1 e2 : num) :
  Driver.energy0 GM float_pow v1 r1 = inr e1 ->
  Driver.energy0 GM float_pow v2 r2 = inr e2 ->
  (exists st,
     Driver.run GM float_pow 2 m1 r1 v1 m2 r2 v2 dt 1 = Returned tt st /\
     (Spec.has_shape (Driver.x st) 1 2 /\ Spec.has_shape (Driver.y st) 1 2 /\
      Spec.has_shape (Driver.vx st) 1 2 /\
      Spec.has_shape (Driver.vy st) 1 2) /\
     (Spec.recorded st 0 0 = Some (r1, 0%float, 0%float, v1) /\
      Spec.recorded st 0 1 = Some (r2, 0%float, 0%float, v2)) /\
     Driver.planets st
     = [Driver.Object (Spec.built GM m1 r1 0 0 v1 dt);
        Driver.Object (Spec.built GM m2 r2 0 0 v2 dt)]) /\
  Driver.run GM float_pow 2 m1 r1 v1 m2 r2 v2 dt 0
  = Raised IndexError Driver.fresh_state /\
  (forall nsteps, (0 <= nsteps)%Z ->
     exists st,
       Driver.run GM float_pow 0 m1 r1 v1 m2 r2 v2 dt nsteps
       = Raised IndexError st /\
       Driver.planets st = []).
Proof.
  intros He1 He2. split; [|split].
  - destruct (DriverFacts.run_recorded GM float_pow m1 r1 v1 m2 r2 v2 dt 1
                e1 e2 He1 He2 ltac:(lia))
      as (st & Hrun & Hshape & H0 & _ & Hpl).
    exists st. auto.
  - reflexivity.
  - intros nsteps Hn.
    unfold Driver.run, Driver.setup, Driver.allocate, bind, eval, store.
    rewrite DriverFacts.np_zeros_ok by lia.
    destruct (Z.to_nat nsteps); eexists; split; reflexivity.
Qed.

(** At the notebook's constants with [nsteps = 1]. *)
Lemma run_without_steps_witness :
  (Driver.energy0 Notebook.GM Notebook.pow Notebook.v1 Notebook.r1
   = inr (lit 0.5 * lit (Notebook.v1 * Notebook.v1)
          - lit Notebook.GM // lit Notebook.r1) /\
   Driver.energy0 Notebook.GM Notebook.pow Notebook.v2 Notebook.r2
   = inr (lit 0.5 * lit (Notebook.v2 * Notebook.v2)
          - lit Notebook.GM // lit Notebook.r2)) /\
  exists st,
    Driver.run Notebook.GM Notebook.pow 2 Notebook.m1 Notebook.r1 Notebook.v1
      Notebook.m2 Notebook.r2 Notebook.v2 Notebook.dt 1
    = Returned tt st /\
    Spec.recorded st 0 0
    = Some (Notebook.r1, 0%float, 0%float, Notebook.v1).
Proof.
  assert (Driver.energy0 Notebook.GM Notebook.pow Notebook.v1 Notebook.r1
          = inr (lit 0.5 * lit (Notebook.v1 * Notebook.v1)
                 - lit Notebook.GM // lit Notebook.r1)) as H1
    by (vm_compute; reflexivity).
  assert (Driver.energy0 Notebook.GM Notebook.pow Notebook.v2 Notebook.r2
          = inr (lit 0.5 * lit (Notebook.v2 * Notebook.v2)
                 - lit Notebook.GM // lit Notebook.r2)) as H2
    by (vm_compute; reflexivity).
  split; [auto|].
  destruct (run_without_steps Notebook.GM Notebook.pow
              Notebook.m1 Notebook.r1 Notebook.v1
              Notebook.m2 Notebook.r2 Notebook.v2 Notebook.dt _ _ H1 H2)
    as ((st & Hrun & _ & (H0 & _) & _) & _).
  exists st. auto.
Defined.

(** C6, the claim as stated fails: with a step count of 0 the notebook's
    run returns no trajectory, it raises [IndexError]; and so does a run
    with zero bodies. *)
Lemma run_zero_steps_raises :
  Driver.run Notebook.GM Notebook.pow 2 Notebook.m1 Notebook.r1 Notebook.v1
    Notebook.m2 Notebook.r2 Notebook.v2 Notebook.dt 0
  = Raised IndexError Driver.fresh_state /\
  exists st,
    Driver.run Notebook.GM Notebook.pow 0 Notebook.m1 Notebook.r1 Notebook.v1
      Notebook.m2 Notebook.r2 Notebook.v2 Notebook.dt Notebook.nsteps
    = Raised IndexError st.
Proof.
  split; [reflexivity|]. eexists. vm_compute. reflexivity.
Qed.

(** The central force is defined wherever [r * r * r] is not zero. *)
Lemma central_force_defined (GM : float) (m px py : num) :
  (val (Spec.cube (Spec.radius px py)) =? 0)%float = false ->
  Spec.central_force GM m px py
  = inr (- lit GM * m * px // Spec.cube (Spec.radius px py),
         - lit GM * m * py // Spec.cube (Spec.radius px py)).
Proof.
  intros Hr3. unfold Spec.central_force.
  rewrite P2Facts.norm_returns. cbn [rbind].
  fold (Spec.radius px py). fold (Spec.cube (Spec.radius px py)).
  rewrite !P2Facts.truediv_nonzero by exact Hr3. reflexivity.
Qed.

(** C3, with the proviso the code needs: for every body with mass above
    zero whose stored force is the central force at its position, and
    whose drift ends where [r * r * r] is not zero, a call of [verlet2]
    returns, and the force it leaves is the central force at the updated
    position; and the driver's set-up, which computes each planet's
    initial force before the stepping loop, leaves both planets with
    stored force equal to the central force at their position. *)
Theorem verlet2_keeps_force_fresh (GM : float) (b : P2.particle2)
    (float_pow : float -> float -> result float)
    (m1 r1 v1 m2 r2 v2 dt : float) (nsteps : Z) (e1 e2 : num) :
  (0 <? val (P2.mass b))%float = true ->
  Spec.fresh GM b ->
  (val (Bodies.r3 (Spec.drifted b)) =? 0)%float = false ->
  (1 <= nsteps)%Z ->
  Driver.energy0 GM float_pow v1 r1 = inr e1 ->
  Driver.energy0 GM float_pow v2 r2 = inr e2 ->
  (exists b',
     P2.verlet2 GM b = Returned tt b' /\
     P2.x b' = P2.x (Spec.drifted b) /\ P2.y b' = P2.y (Spec.drifted b) /\
     Spec.fresh GM b') /\
  exists st P Q,
    Driver.setup GM float_pow 2 m1 r1 v1 m2 r2 v2 dt nsteps Driver.fresh_state
    = Returned tt st /\
    Driver.planets st = [Driver.Object P; Driver.Object Q] /\
    Spec.fresh GM P /\ Spec.fresh GM Q.
Proof.
  intros Hm _ Hr3 Hn He1 He2. apply FloatFacts.pos_not_zero in Hm. split.
  - pose proof (central_force_defined GM (P2.mass b) _ _ Hr3) as HF.
    pose proof (P2Facts.verlet2_returns GM b _ Hm HF) as Hrun.
    eexists. split; [exact Hrun|].
    split; [reflexivity|]. split; [reflexivity|].
    eapply P2Facts.verlet2_returned_fresh, Hrun.
  - destruct (Z.to_nat nsteps) as [|k] eqn:Hk; [lia|].
    eexists _, _, _. split.
    { apply (DriverFacts.setup_returns GM float_pow m1 r1 v1 m2 r2 v2 dt
               nsteps e1 e2 He1 He2 k Hk). }
    split; [reflexivity|].
    split; apply DriverFacts.built_fresh.
Qed.

(** At the first planet's first step. *)
Lemma verlet2_keeps_force_fresh_witness :
  ((0 <? val (P2.mass Notebook.planet1))%float = true /\
   Spec.fresh Notebook.GM Notebook.planet1 /\
   (val (Bodies.r3 (Spec.drifted Notebook.planet1)) =? 0)%float = false /\
   (1 <= Notebook.nsteps)%Z) /\
  Spec.fresh Notebook.GM Notebook.planet1_row1.
Proof.
  assert ((0 <? val (P2.mass Notebook.planet1))%float = true) as Hm
    by reflexivity.
  assert (Spec.fresh Notebook.GM Notebook.planet1) as Hf
    by (vm_compute; reflexivity).
  assert ((val (Bodies.r3 (Spec.drifted Notebook.planet1)) =? 0)%float
          = false) as Hr3 by (vm_compute; reflexivity).
  assert ((1 <= Notebook.nsteps)%Z) as Hn by (unfold Notebook.nsteps; lia).
  assert (Driver.energy0 Notebook.GM Notebook.pow Notebook.v1 Notebook.r1
          = inr (lit 0.5 * lit (Notebook.v1 * Notebook.v1)
                 - lit Notebook.GM // lit Notebook.r1)) as H1
    by (vm_compute; reflexivity).
  assert (Driver.energy0 Notebook.GM Notebook.pow Notebook.v2 Notebook.r2
          = inr (lit 0.5 * lit (Notebook.v2 * Notebook.v2)
                 - lit Notebook.GM // lit Notebook.r2)) as H2
    by (vm_compute; reflexivity).
  split; [auto|].
  destruct (verlet2_keeps_force_fresh Notebook.GM Notebook.planet1
              Notebook.pow Notebook.m1 Notebook.r1 Notebook.v1
              Notebook.m2 Notebook.r2 Notebook.v2 Notebook.dt
              Notebook.nsteps _ _ Hm Hf Hr3 Hn H1 H2)
    as [(b' & Hrun & _ & _ & Hfresh) _].
  assert (P2.verlet2 Notebook.GM Notebook.planet1
          = Returned tt Notebook.planet1_row1) as Hrow
    by (vm_compute; reflexivity).
  rewrite Hrow in Hrun. injection Hrun as <-. exact Hfresh.
Defined.

(** C3, the claim as stated fails: [inbound] has mass 1 and holds the
    central force at its position (1, 0), yet its step raises
    [ZeroDivisionError], because its drift takes it exactly onto the
    origin; it is left there still holding the force of (1, 0), which is
    not the central force at the origin (there is none). *)
Lemma verlet2_leaves_stale_force :
  (0 <? val (P2.mass Notebook.inbound))%float = true /\
  Spec.fresh Notebook.GM Notebook.inbound /\
  exists s,
    P2.verlet2 Notebook.GM Notebook.inbound = Raised ZeroDivisionError s /\
    (val (P2.x s) = 0%float /\ val (P2.y s) = 0%float) /\
    (P2.fx s = P2.fx Notebook.inbound /\ P2.fy s = P2.fy Notebook.inbound) /\
    ~ Spec.fresh Notebook.GM s.
Proof.
  split; [reflexivity|]. split; [vm_compute; reflexivity|].
  exists (Spec.kicked (Spec.drifted Notebook.inbound)).
  split; [vm_compute; reflexivity|].
  split; [split; vm_compute; reflexivity|].
  split; [split; reflexivity|].
  intros H. vm_compute in H. discriminate H.
Qed.






End DriverProps.

(* ====================================================================== *)
(** ** Edge behaviour of the class *)
(* ====================================================================== *)

Module ClassBehaviour.
Import Py.
Local Open Scope py_scope.
Local Open Scope num_scope.

(** *** Which exceptions, and when *)
Lemma accel_raised (b s : P2.particle2) (e : exn) :
  P2.accel b = Raised e s ->
  e = ZeroDivisionError /\ (val (P2.mass b) =? 0)%float = true.
Proof.
  rewrite P2Facts.accel_unfold.
  destruct (P2Facts.truediv_cases (P2.fx b * P2.halfdt b) (P2.mass b))
    as [->|(-> & _ & _ & Hz)]; [|intros [= <- _]; auto].
  cbn zeta.
  destruct (P2Facts.truediv_cases (P2.fy b * P2.halfdt b) (P2.mass b))
    as [->|(-> & _ & _ & Hz)]; [discriminate|intros [= <- _]; auto].
Qed.

Lemma move_raised (b s : P2.particle2) (e : exn) :
  P2.move b = Raised e s ->
  e = ZeroDivisionError /\ (val (P2.mass b) =? 0)%float = true.
Proof.
  rewrite P2Facts.move_unfold.
  destruct (P2Facts.truediv_cases (P2.fx b * P2.dt b * P2.halfdt b)
              (P2.mass b)) as [->|(-> & _ & _ & Hz)]; [|intros [= <- _]; auto].
  cbn zeta.
  destruct (P2Facts.truediv_cases (P2.fy b * P2.dt b * P2.halfdt b)
              (P2.mass b)) as [->|(-> & _ & _ & Hz)];
    [discriminate|intros [= <- _]; auto].
Qed.

Lemma get_force_raised_zero (GM : float) (b s : P2.particle2) (e : exn) :
  P2.get_force GM b = Raised e s ->
  e = ZeroDivisionError /\ (val (Bodies.r3 s) =? 0)%float = true.
Proof.
  intros H.
  pose proof (P2Facts.get_force_frame GM b) as Hfr. rewrite H in Hfr.
  cbn [exit_state] in Hfr. destruct Hfr as (_ & _ & _ & Hx & Hy & _).
  unfold Bodies.r3. rewrite Hx, Hy. revert H.
  rewrite P2Facts.get_force_unfold, P2Facts.norm_returns.
  fold (Spec.radius (P2.x b) (P2.y b)).
  set (r := Spec.radius _ _). fold (Spec.cube r).
  destruct (P2Facts.truediv_cases (- lit GM * P2.mass b * P2.x b)
              (Spec.cube r)) as [->|(-> & _ & _ & Hz)];
    [|intros [= <- _]; auto].
  destruct (P2Facts.truediv_cases (- lit GM * P2.mass b * P2.y b)
              (Spec.cube r)) as [->|(-> & _ & _ & Hz)];
    [discriminate|intros [= <- _]; auto].
Qed.

(** X1: on a body whose attributes are floats (each a Python float or a
    [numpy.float64]), a method that raises raises [ZeroDivisionError],
    whichever of [accel], [move], [get_force] and [verlet2] it is, and then
    the mass compares equal to zero or [r * r * r] is zero at the position
    the body is left at; [math.sqrt] never refuses its argument, a sum of
    two squares of floats. *)
Theorem only_zero_division (GM : float) (b s : P2.particle2) (e : exn) :
  P2.accel b = Raised e s \/ P2.move b = Raised e s \/
  P2.get_force GM b = Raised e s \/ P2.verlet2 GM b = Raised e s ->
  e = ZeroDivisionError /\
  ((val (P2.mass b) =? 0)%float = true \/
   (val (Bodies.r3 s) =? 0)%float = true).
Proof.
  intros [H|[H|[H|H]]].
  - apply accel_raised in H as [-> H]. auto.
  - apply move_raised in H as [-> H]. auto.
  - apply get_force_raised_zero in H as [-> H]. auto.
  - revert H. rewrite P2Facts.verlet2_unfold.
    pose proof (P2Facts.move_frame b) as Hm.
    destruct (P2.move b) as [[] b1|e1 s1] eqn:Hmove.
    2:{ intros [= <- <-]. apply move_raised in Hmove as [-> Hz]. auto. }
    cbn [exit_state] in Hm. destruct Hm as (Hm & _).
    pose proof (P2Facts.accel_frame b1) as Ha.
    destruct (P2.accel b1) as [[] b2|e2 s2] eqn:Haccel.
    2:{ intros [= <- <-]. apply accel_raised in Haccel as [-> Hz].
        rewrite Hm in Hz. auto. }
    cbn [exit_state] in Ha. destruct Ha as (Ha & _).
    pose proof (P2Facts.get_force_frame GM b2) as Hg.
    destruct (P2.get_force GM b2) as [[] b3|e3 s3] eqn:Hforce.
    2:{ intros [= <- <-]. apply get_force_raised_zero in Hforce as [-> Hz].
        auto. }
    cbn [exit_state] in Hg. destruct Hg as (Hg & _).
    intros H. apply accel_raised in H as [-> Hz].
    rewrite Hg, Ha, Hm in Hz. auto.
Qed.

Lemma only_zero_division_witness :
  (P2.accel Notebook.default = Raised ZeroDivisionError Notebook.default \/
   P2.move Notebook.default = Raised ZeroDivisionError Notebook.default \/
   P2.get_force Notebook.GM Notebook.default
   = Raised ZeroDivisionError Notebook.default \/
   P2.verlet2 Notebook.GM Notebook.default
   = Raised ZeroDivisionError Notebook.default) /\
  ZeroDivisionError = ZeroDivisionError /\
  ((val (P2.mass Notebook.default) =? 0)%float = true \/
   (val (Bodies.r3 Notebook.default) =? 0)%float = true).
Proof.
  assert (P2.get_force Notebook.GM Notebook.default
          = Raised ZeroDivisionError Notebook.default) as H
    by (vm_compute; reflexivity).
  split; [auto|].
  apply (only_zero_division Notebook.GM Notebook.default Notebook.default
           ZeroDivisionError).
  right; right; left. exact H.
Defined.

(** *** Numpy bodies *)

Lemma central_force_numpy_eq (GM : float) (m px py : num) :
  kind_of px = NpFloat64 -> kind_of py = NpFloat64 ->
  Spec.central_force GM m px py
  = inr (- lit GM * m * px // Spec.cube (Spec.radius px py),
         - lit GM * m * py // Spec.cube (Spec.radius px py)).
Proof.
  intros Hx Hy. unfold Spec.central_force.
  rewrite P2Facts.norm_returns. cbn [rbind].
  rewrite !P2Facts.truediv_numpy;
    [reflexivity
    | cbn; rewrite ?Hx, ?Hy, P2Facts.coerce_numpy_r; reflexivity ..].
Qed.

Lemma get_force_numpy (GM : float) (b : P2.particle2) :
  kind_of (P2.x b) = NpFloat64 -> kind_of (P2.y b) = NpFloat64 ->
  P2.get_force GM b
  = Returned tt
      (Spec.with_force
         (- lit GM * P2.mass b * P2.x b // Bodies.r3 b,
          - lit GM * P2.mass b * P2.y b // Bodies.r3 b) b).
Proof.
  intros Hx Hy.
  rewrite (P2Facts.get_force_central GM b _ _
             (central_force_numpy_eq GM (P2.mass b) _ _ Hx Hy)).
  reflexivity.
Qed.

Lemma verlet2_numpy_state (GM : float) (b : P2.particle2) :
  Spec.numpy_body b ->
  let b2 := Spec.kicked (Spec.drifted b) in
  P2.verlet2 GM b
  = Returned tt
      (Spec.kicked
         (Spec.with_force
            (- lit GM * P2.mass b2 * P2.x b2 // Bodies.r3 b2,
             - lit GM * P2.mass b2 * P2.y b2 // Bodies.r3 b2) b2)).
Proof.
  intros (Hx & Hy & Hfx & Hfy) b2.
  rewrite P2Facts.verlet2_unfold, P2Facts.move_returns_numpy by assumption.
  rewrite P2Facts.accel_returns_numpy by assumption. fold b2.
  rewrite get_force_numpy by (cbn; rewrite ?Hx, ?Hy; reflexivity).
  rewrite P2Facts.accel_returns_numpy
    by (cbn; rewrite ?Hx, ?Hy, ?P2Facts.coerce_numpy_r; reflexivity).
  reflexivity.
Qed.

(** X2: a body whose position and stored force are [numpy.float64]
    values, as every planet of the driver, is never refused: [accel] and
    [move] return the half kick and the drift, [get_force] returns, and any
    number of [verlet2] calls in a row return, the body staying such a
    body; this holds whatever the mass and the position, zero included. *)
Theorem numpy_body_never_raises (GM : float) (b : P2.particle2) :
  Spec.numpy_body b ->
  P2.accel b = Returned tt (Spec.kicked b) /\
  P2.move b = Returned tt (Spec.drifted b) /\
  (exists s, P2.get_force GM b = Returned tt s /\ Spec.numpy_body s) /\
  forall k, exists s,
    Spec.steps GM k b = Returned tt s /\ Spec.numpy_body s.
Proof.
  intros Hb. pose proof Hb as (Hx & Hy & Hfx & Hfy).
  split; [now apply P2Facts.accel_returns_numpy|].
  split; [now apply P2Facts.move_returns_numpy|].
  split.
  - eexists. split; [now apply get_force_numpy|].
    repeat split; cbn; rewrite ?Hx, ?Hy, ?P2Facts.coerce_numpy_r; auto.
  - intros k. eexists. apply (DriverFacts.steps_numpy GM k b Hb).
Qed.

Lemma numpy_body_never_raises_witness :
  Spec.numpy_body Bodies.lost /\
  exists s, Spec.steps Notebook.GM 3 Bodies.lost = Returned tt s.
Proof.
  assert (Spec.numpy_body Bodies.lost) as H by (repeat split).
  split; [exact H|].
  destruct (numpy_body_never_raises Notebook.GM Bodies.lost H)
    as (_ & _ & _ & Hk).
  destruct (Hk 3) as (s & Hs & _). exists s. exact Hs.
Defined.

(** *** Python-float bodies *)

(** X3: on a body made of Python floats whose mass is zero, [accel],
    [move] and [verlet2] raise [ZeroDivisionError] at their first division
    and leave the body exactly as it was. *)
Theorem massless_python_body_raises (GM : float) (b : P2.particle2) :
  Bodies.python_body b -> (val (P2.mass b) =? 0)%float = true ->
  P2.accel b = Raised ZeroDivisionError b /\
  P2.move b = Raised ZeroDivisionError b /\
  P2.verlet2 GM b = Raised ZeroDivisionError b.
Proof.
  intros (Km & _ & _ & _ & _ & Kdt & Kh & Kfx & Kfy) Hz.
  assert (P2.move b = Raised ZeroDivisionError b) as Hmove.
  { rewrite P2Facts.move_unfold. unfold truediv. cbn [mul kind_of val].
    rewrite Km, Kdt, Kh, Kfx, Hz. reflexivity. }
  split; [|split; [exact Hmove|]].
  - rewrite P2Facts.accel_unfold. unfold truediv. cbn [mul kind_of val].
    rewrite Km, Kh, Kfx, Hz. reflexivity.
  - rewrite P2Facts.verlet2_unfold, Hmove. reflexivity.
Qed.

Lemma massless_python_body_raises_witness :
  (Bodies.python_body Bodies.massless /\
   (val (P2.mass Bodies.massless) =? 0)%float = true) /\
  P2.verlet2 Notebook.GM Bodies.massless
  = Raised ZeroDivisionError Bodies.massless.
Proof.
  assert (Bodies.python_body Bodies.massless) as H by (repeat split).
  split; [split; [exact H | reflexivity]|].
  apply (massless_python_body_raises Notebook.GM Bodies.massless H).
  reflexivity.
Defined.

(** X4: a step that fails is not undone.  On a body made of Python
    floats with a non-zero mass whose drift ends where [r * r * r] is zero,
    [verlet2] raises [ZeroDivisionError] out of [get_force] and leaves the
    body drifted and half-kicked, with the force it had. *)
Theorem failed_step_not_undone (GM : float) (b : P2.particle2) :
  Bodies.python_body b ->
  (val (P2.mass b) =? 0)%float = false ->
  (val (Bodies.r3 (Spec.drifted b)) =? 0)%float = true ->
  P2.verlet2 GM b
  = Raised ZeroDivisionError (Spec.kicked (Spec.drifted b)).
Proof.
  intros (Km & Kx & Ky & Kvx & Kvy & Kdt & Kh & Kfx & Kfy) Hm Hz.
  rewrite P2Facts.verlet2_unfold, P2Facts.move_returns by assumption.
  rewrite P2Facts.accel_returns by assumption.
  rewrite P2Facts.get_force_unfold, P2Facts.norm_returns.
  unfold truediv at 1.
  cbn [mul neg lit kind_of val Spec.kicked Spec.drifted Spec.drift add quot
       P2.x P2.y P2.mass].
  rewrite Km, Kx, Kvx, Kdt, Kh, Kfx. cbn [coerce].
  unfold Bodies.r3, Spec.cube, Spec.radius in Hz.
  cbn [mul neg lit kind_of val Spec.kicked Spec.drifted Spec.drift add quot
       P2.x P2.y P2.mass] in Hz.
  rewrite Hz. reflexivity.
Qed.

Lemma failed_step_not_undone_witness :
  (Bodies.python_body Notebook.inbound /\
   (val (P2.mass Notebook.inbound) =? 0)%float = false /\
   (val (Bodies.r3 (Spec.drifted Notebook.inbound)) =? 0)%float = true) /\
  P2.verlet2 Notebook.GM Notebook.inbound
  = Raised ZeroDivisionError (Spec.kicked (Spec.drifted Notebook.inbound)).
Proof.
  assert (Bodies.python_body Notebook.inbound) as H by (repeat split).
  split; [split; [exact H | split; vm_compute; reflexivity]|].
  apply (failed_step_not_undone Notebook.GM Notebook.inbound H);
    vm_compute; reflexivity.
Defined.

Lemma python_accel (b : P2.particle2) :
  Bodies.python_body b -> Bodies.python_body (exit_state (P2.accel b)).
Proof.
  intros Hb. pose proof Hb as (Km & Kx & Ky & Kvx & Kvy & Kdt & Kh & Kfx & Kfy).
  rewrite P2Facts.accel_unfold. unfold truediv. cbn [mul kind_of val].
  rewrite Km, Kh, Kfx, Kfy. cbn [coerce].
  destruct (val (P2.mass b) =? 0)%float; [exact Hb|].
  repeat split; cbn; rewrite ?Kvx, ?Kvy, ?Kfx, ?Kfy, ?Kh, ?Km; auto.
Qed.

Lemma python_move (b : P2.particle2) :
  Bodies.python_body b -> Bodies.python_body (exit_state (P2.move b)).
Proof.
  intros Hb. pose proof Hb as (Km & Kx & Ky & Kvx & Kvy & Kdt & Kh & Kfx & Kfy).
  rewrite P2Facts.move_unfold. unfold truediv. cbn [mul kind_of val].
  rewrite Km, Kdt, Kh, Kfx, Kfy. cbn [coerce].
  destruct (val (P2.mass b) =? 0)%float; [exact Hb|].
  repeat split; cbn;
    rewrite ?Kx, ?Ky, ?Kvx, ?Kvy, ?Kfx, ?Kfy, ?Kdt, ?Kh, ?Km; auto.
Qed.

Lemma python_get_force (GM : float) (b : P2.particle2) :
  Bodies.python_body b ->
  Bodies.python_body (exit_state (P2.get_force GM b)).
Proof.
  intros Hb. pose proof Hb as (Km & Kx & Ky & Kvx & Kvy & Kdt & Kh & Kfx & Kfy).
  rewrite P2Facts.get_force_unfold, P2Facts.norm_returns.
  unfold truediv. cbn [mul neg lit kind_of val].
  rewrite Km, Kx, Ky. cbn [coerce].
  destruct (_ =? 0)%float; [exact Hb|].
  repeat split; cbn; rewrite ?Kx, ?Ky, ?Km; auto.
Qed.

Lemma python_verlet2 (GM : float) (b : P2.particle2) :
  Bodies.python_body b ->
  Bodies.python_body (exit_state (P2.verlet2 GM b)).
Proof.
  intros Hb. rewrite P2Facts.verlet2_unfold.
  pose proof (python_move b Hb) as H1.
  destruct (P2.move b) as [[] b1|e s]; [|exact H1].
  pose proof (python_accel b1 H1) as H2.
  destruct (P2.accel b1) as [[] b2|e s]; [|exact H2].
  pose proof (python_get_force GM b2 H2) as H3.
  destruct (P2.get_force GM b2) as [[] b3|e s]; [|exact H3].
  exact (python_accel b3 H3).
Qed.

(** X5: a body made of Python floats stays one: the state [accel],
    [move] and [get_force] exit with, returning or raising, and the state
    after any number of [verlet2] calls, has Python floats in all nine
    attributes. *)
Theorem python_body_stays_python (GM : float) (b : P2.particle2) (k : nat) :
  Bodies.python_body b ->
  Bodies.python_body (exit_state (P2.accel b)) /\
  Bodies.python_body (exit_state (P2.move b)) /\
  Bodies.python_body (exit_state (P2.get_force GM b)) /\
  Bodies.python_body (Spec.after GM k b).
Proof.
  intros Hb.
  split; [now apply python_accel|].
  split; [now apply python_move|].
  split; [now apply python_get_force|].
  unfold Spec.after. induction k as [|k IH]; [exact Hb|].
  cbn [Spec.steps]. rewrite DriverFacts.bind_run.
  destruct (Spec.steps GM k b) as [[] s|e s]; cbn [exit_state] in *.
  - now apply python_verlet2.
  - exact IH.
Qed.

Lemma python_body_stays_python_witness :
  Bodies.python_body Notebook.orbiting /\
  Bodies.python_body (Spec.after Notebook.GM 2 Notebook.orbiting).
Proof.
  assert (Bodies.python_body Notebook.orbiting) as H by (repeat split).
  split; [exact H|].
  apply (python_body_stays_python Notebook.GM Notebook.orbiting 2 H).
Defined.

(** *** Symmetry *)

Lemma truediv_neg (a r : num) :
  - a / r = match a / r with inl e => inl e | inr f => inr (- f) end.
Proof.
  unfold truediv, quot. cbn [neg kind_of val].
  rewrite FloatSym.div_opp_l.
  destruct (coerce _ _); [destruct (_ =? 0)%float|]; reflexivity.
Qed.

Lemma mul_neg_r (a b : num) : a * - b = - (a * b).
Proof. unfold mul, neg. cbn [kind_of val]. now rewrite FloatSym.mul_opp_r. Qed.

(** X6: the force is odd under reflection through the centre, exactly
    in binary64: [get_force] on the reflected body has the outcome of
    [get_force] on the body, reflected; it raises for both or for neither,
    and the forces stored are opposite. *)
Theorem get_force_odd (GM : float) (b : P2.particle2) :
  P2.get_force GM (Bodies.mirror b)
  = Bodies.through Bodies.mirror (P2.get_force GM b).
Proof.
  rewrite !P2Facts.get_force_unfold, !P2Facts.norm_returns.
  cbn [Bodies.mirror P2.x P2.y P2.mass neg val kind_of].
  rewrite !FloatSym.mul_opp_opp.
  set (r := Num PyFloat _).
  change (Num (kind_of (P2.x b)) (- val (P2.x b))) with (- P2.x b).
  change (Num (kind_of (P2.y b)) (- val (P2.y b))) with (- P2.y b).
  rewrite !mul_neg_r, !truediv_neg.
  destruct (_ / _) as [e|f1]; [reflexivity|].
  destruct (_ / _) as [e|f2]; reflexivity.
Qed.

(** *** NaN *)

Lemma nan_step (GM : float) (b : P2.particle2) :
  Spec.numpy_body b -> val (P2.fx b) = nan ->
  exists b',
    P2.verlet2 GM b = Returned tt b' /\ Spec.numpy_body b' /\
    val (P2.x b') = nan /\ val (P2.vx b') = nan /\
    val (P2.fx b') = nan /\ val (P2.fy b') = nan /\
    (val (P2.fy b) = nan -> val (P2.y b') = nan /\ val (P2.vy b') = nan).
Proof.
  intros Hb Hnan. pose proof Hb as (Hx & Hy & Hfx & Hfy).
  eexists. split; [apply (verlet2_numpy_state GM b Hb)|].
  split; [repeat split; cbn; rewrite ?Hx, ?Hy, ?P2Facts.coerce_numpy_r; auto|].
  unfold Bodies.r3, Spec.cube, Spec.radius.
  cbn [Spec.kicked Spec.with_force Spec.drifted Spec.drift Spec.half_kick
       P2.x P2.y P2.vx P2.vy P2.fx P2.fy P2.mass P2.dt P2.halfdt
       fst snd add mul quot neg lit val kind_of].
  rewrite Hnan.
  rewrite ?FloatSym.mul_nan_l, ?FloatSym.div_nan_l, ?FloatSym.add_nan_r,
    ?FloatSym.mul_nan_r, ?FloatSym.add_nan_l, ?FloatSym.sqrt_nan,
    ?FloatSym.mul_nan_l, ?FloatSym.div_nan_r, ?FloatSym.div_nan_l,
    ?FloatSym.add_nan_r.
  do 4 (split; [reflexivity|]).
  intros ->.
  rewrite ?FloatSym.mul_nan_l, ?FloatSym.div_nan_l, ?FloatSym.add_nan_r.
  split; reflexivity.
Qed.

(** X7: NaN does not go away.  If a numpy body's stored [fx] is NaN,
    every later step still returns, and after each of them [x], [vx], [fx]
    and [fy] are NaN; from the second step on [y] and [vy] are NaN too. *)
Theorem nan_force_persists (GM : float) (b : P2.particle2) (k : nat) :
  Spec.numpy_body b -> val (P2.fx b) = nan ->
  let s1 := Spec.after GM (S k) b in
  let s2 := Spec.after GM (S (S k)) b in
  Spec.steps GM (S (S k)) b = Returned tt s2 /\
  (val (P2.x s1) = nan /\ val (P2.vx s1) = nan /\
   val (P2.fx s1) = nan /\ val (P2.fy s1) = nan) /\
  (val (P2.y s2) = nan /\ val (P2.vy s2) = nan).
Proof.
  intros Hb Hnan s1 s2.
  split; [apply (DriverFacts.steps_numpy GM (S (S k)) b Hb)|].
  assert (forall j, val (P2.x (Spec.after GM (S j) b)) = nan /\
                    val (P2.vx (Spec.after GM (S j) b)) = nan /\
                    val (P2.fx (Spec.after GM (S j) b)) = nan /\
                    val (P2.fy (Spec.after GM (S j) b)) = nan) as Hall.
  { induction j as [|j IH].
    - destruct (nan_step GM b Hb Hnan) as (b' & Hrun & _ & H).
      pose proof (DriverFacts.after_S GM 0 b Hb) as H1.
      change (Spec.after GM 0 b) with b in H1. rewrite Hrun in H1.
      injection H1 as <-. tauto.
    - destruct (DriverFacts.steps_numpy GM (S j) b Hb) as [_ Hnp].
      destruct (nan_step GM _ Hnp (proj1 (proj2 (proj2 IH))))
        as (b' & Hrun & _ & H).
      rewrite (DriverFacts.after_S GM (S j) b Hb) in Hrun.
      injection Hrun as <-. tauto. }
  split; [apply Hall|].
  destruct (Hall k) as (_ & _ & Hfx & Hfy).
  destruct (DriverFacts.steps_numpy GM (S k) b Hb) as [_ Hnp].
  destruct (nan_step GM _ Hnp Hfx) as (b' & Hrun & _ & _ & _ & _ & _ & H).
  rewrite (DriverFacts.after_S GM (S k) b Hb) in Hrun.
  injection Hrun as <-. exact (H Hfy).
Qed.

Lemma nan_force_persists_witness :
  (Spec.numpy_body Bodies.lost /\ val (P2.fx Bodies.lost) = nan) /\
  val (P2.x (Spec.after Notebook.GM 1 Bodies.lost)) = nan /\
  val (P2.y (Spec.after Notebook.GM 2 Bodies.lost)) = nan.
Proof.
  assert (Spec.numpy_body Bodies.lost) as H by (repeat split).
  split; [split; [exact H | reflexivity]|].
  destruct (nan_force_persists Notebook.GM Bodies.lost 0 H eq_refl)
    as (_ & (Hx & _) & (Hy & _)).
  split; [exact Hx | exact Hy].
Defined.

End ClassBehaviour.

(* ====================================================================== *)
(** ** Edge behaviour of the driver cell *)
(* ====================================================================== *)

Module DriverBehaviour.
Import Py.
Local Open Scope py_scope.
Local Open Scope num_scope.

Lemma for_append (l : list nat) (st : Driver.state) :
  for_ l (fun _ =>
            store (fun st =>
                     Driver.set_planets
                       (Driver.planets st ++ [Driver.ClassList]) st))
       st
  = Returned tt
      (Driver.set_planets
         (Driver.planets st ++ replicate (length l) Driver.ClassList) st).
Proof.
  revert st. induction l as [|i l IH]; intros st.
  - cbn. rewrite app_nil_r. destruct st; reflexivity.
  - cbn [for_ length replicate]. rewrite DriverFacts.bind_run.
    unfold store at 1. rewrite IH. destruct st as [X Y VX VY E pl g].
    unfold Driver.set_planets. DriverFacts.fields.
    rewrite <- app_assoc. reflexivity.
Qed.

Lemma make_list_returns (NPLANETS : Z) (st : Driver.state) :
  Driver.make_list NPLANETS st
  = Returned tt
      (Driver.set_planets (replicate (Z.to_nat NPLANETS) Driver.ClassList) st).
Proof.
  unfold Driver.make_list. rewrite DriverFacts.bind_run. unfold store at 1.
  rewrite for_append. unfold range. rewrite length_seq, Nat.sub_0_r.
  destruct st; reflexivity.
Qed.

Section Script.

Variable GM : float.
Variable float_pow : float -> float -> result float.
Variables (NPLANETS : Z) (m1 r1 v1 m2 r2 v2 dt : float) (nsteps : Z).

Local Abbreviation the_run :=
  (Driver.run GM float_pow NPLANETS m1 r1 v1 m2 r2 v2 dt nsteps).
Local Abbreviation the_rest :=
  (Cell.from_arrays GM float_pow NPLANETS m1 r1 v1 m2 r2 v2 dt nsteps).
Local Abbreviation P := (Spec.built GM m1 r1 0 0 v1 dt).
Local Abbreviation Q := (Spec.built GM m2 r2 0 0 v2 dt).

Lemma allocate_refused :
  ((nsteps <? 0) || (NPLANETS <? 0))%Z = true ->
  the_run = Raised ValueError Driver.fresh_state.
Proof.
  intros H. unfold Driver.run, Driver.setup, Driver.allocate.
  rewrite !DriverFacts.bind_run. unfold eval at 1, Driver.np_zeros.
  rewrite H. reflexivity.
Qed.

Lemma allocate_zeros :
  ((nsteps <? 0) || (NPLANETS <? 0))%Z = false ->
  let A := replicate (Z.to_nat nsteps)
             (replicate (Z.to_nat NPLANETS) 0%float) in
  Driver.allocate NPLANETS nsteps Driver.fresh_state
  = Returned tt (Driver.State A A A A A [] (P2.Globals None None)).
Proof.
  intros H A. unfold Driver.allocate, bind, eval, store, Driver.np_zeros.
  rewrite H. reflexivity.
Qed.


(** The run once the arrays are allocated. *)
Lemma run_allocated :
  ((nsteps <? 0) || (NPLANETS <? 0))%Z = false ->
  let A := replicate (Z.to_nat nsteps)
             (replicate (Z.to_nat NPLANETS) 0%float) in
  the_run
  = match Driver.initial_conditions GM float_pow r1 v1 r2 v2
            (Driver.State A A A A A [] (P2.Globals None None)) with
    | Raised e s => Raised e s
    | Returned _ s =>
        match Driver.build_all GM NPLANETS m1 m2 dt
                (Driver.set_planets
                   (replicate (Z.to_nat NPLANETS) Driver.ClassList) s) with
        | Raised e s' => Raised e s'
        | Returned _ s' => Driver.stepping GM NPLANETS nsteps s'
        end
    end.
Proof.
  intros H A. unfold Driver.run, Driver.setup.
  rewrite !DriverFacts.bind_run, (allocate_zeros H). fold A.
  rewrite DriverFacts.bind_run.
  destruct (Driver.initial_conditions _ _ _ _ _ _ _) as [[] s|e s];
    [|reflexivity].
  rewrite DriverFacts.bind_run, make_list_returns. reflexivity.
Qed.

Lemma no_rows_raises Y VX VY E pl g :
  Driver.initial_conditions GM float_pow r1 v1 r2 v2
    (Driver.State [] Y VX VY E pl g)
  = Raised IndexError (Driver.State [] Y VX VY E pl g).
Proof. reflexivity. Qed.

Lemma no_columns_raises R Y VX VY E pl g :
  Driver.initial_conditions GM float_pow r1 v1 r2 v2
    (Driver.State ([] :: R) Y VX VY E pl g)
  = Raised IndexError (Driver.State ([] :: R) Y VX VY E pl g).
Proof. reflexivity. Qed.

Lemma first_energy_raises e a b c d f ta tb tc td tf Ra Rb Rc Rd Rf pl g :
  Driver.energy0 GM float_pow v1 r1 = inl e ->
  exists s,
    Driver.initial_conditions GM float_pow r1 v1 r2 v2
      (Driver.State ((a :: ta) :: Ra) ((b :: tb) :: Rb) ((c :: tc) :: Rc)
         ((d :: td) :: Rd) ((f :: tf) :: Rf) pl g)
    = Raised e s.
Proof.
  intros He. eexists.
  unfold Driver.initial_conditions, Driver.assign, bind, eval, store.
  rewrite He. reflexivity.
Qed.

Lemma one_column_raises e1 a b c d f Ra Rb Rc Rd Rf pl g :
  Driver.energy0 GM float_pow v1 r1 = inr e1 ->
  exists s,
    Driver.initial_conditions GM float_pow r1 v1 r2 v2
      (Driver.State ([a] :: Ra) ([b] :: Rb) ([c] :: Rc)
         ([d] :: Rd) ([f] :: Rf) pl g)
    = Raised IndexError s.
Proof.
  intros He. eexists.
  unfold Driver.initial_conditions, Driver.assign, bind, eval, store.
  rewrite He. reflexivity.
Qed.

Lemma second_energy_raises e1 e a a' b b' c c' d d' f f'
    ta tb tc td tf Ra Rb Rc Rd Rf pl g :
  Driver.energy0 GM float_pow v1 r1 = inr e1 ->
  Driver.energy0 GM float_pow v2 r2 = inl e ->
  exists s,
    Driver.initial_conditions GM float_pow r1 v1 r2 v2
      (Driver.State ((a :: a' :: ta) :: Ra) ((b :: b' :: tb) :: Rb)
         ((c :: c' :: tc) :: Rc) ((d :: d' :: td) :: Rd)
         ((f :: f' :: tf) :: Rf) pl g)
    = Raised e s.
Proof.
  intros He1 He2. eexists.
  unfold Driver.initial_conditions, Driver.assign, bind, eval, store.
  rewrite He1, He2. reflexivity.
Qed.

Lemma initial_conditions_wide e1 e2 a a' b b' c c' d d' f f'
    ta tb tc td tf Ra Rb Rc Rd Rf pl g :
  Driver.energy0 GM float_pow v1 r1 = inr e1 ->
  Driver.energy0 GM float_pow v2 r2 = inr e2 ->
  Driver.initial_conditions GM float_pow r1 v1 r2 v2
    (Driver.State ((a :: a' :: ta) :: Ra) ((b :: b' :: tb) :: Rb)
       ((c :: c' :: tc) :: Rc) ((d :: d' :: td) :: Rd)
       ((f :: f' :: tf) :: Rf) pl g)
  = Returned tt
      (Driver.State ((r1 :: r2 :: ta) :: Ra) ((0%float :: 0%float :: tb) :: Rb)
         ((0%float :: 0%float :: tc) :: Rc) ((v1 :: v2 :: td) :: Rd)
         ((val e1 :: val e2 :: tf) :: Rf) pl g).
Proof.
  intros He1 He2.
  unfold Driver.initial_conditions, Driver.assign, bind, eval, store.
  rewrite He1, He2. reflexivity.
Qed.

(** With more than two planets announced, the first two are built and the
    third turn of the building loop stops at [m[2]]. *)
Lemma third_build_raises q ta tb tc td Ra Rb Rc Rd E g :
  Z.to_nat NPLANETS = S (S (S q)) ->
  Driver.build_all GM NPLANETS m1 m2 dt
    (Driver.State ((r1 :: r2 :: ta) :: Ra) ((0%float :: 0%float :: tb) :: Rb)
       ((0%float :: 0%float :: tc) :: Rc) ((v1 :: v2 :: td) :: Rd) E
       (Driver.ClassList :: Driver.ClassList
          :: replicate (S q) Driver.ClassList) g)
  = Raised IndexError
      (Driver.State ((r1 :: r2 :: ta) :: Ra) ((0%float :: 0%float :: tb) :: Rb)
         ((0%float :: 0%float :: tc) :: Rc) ((v1 :: v2 :: td) :: Rd) E
         (Driver.Object P :: Driver.Object Q
            :: replicate (S q) Driver.ClassList)
         (P2.Globals (Some (P2.fx Q)) (Some (P2.fy Q)))).
Proof.
  intros Hp. unfold Driver.build_all, range. rewrite Hp.
  cbn [Nat.sub seq for_ replicate].
  rewrite DriverFacts.bind_run.
  rewrite (DriverFacts.build_returns GM m1 m2 dt 0 m1 r1 0 0 v1)
    by (try reflexivity; eexists; reflexivity).
  rewrite DriverFacts.bind_run.
  rewrite (DriverFacts.build_returns GM m1 m2 dt 1 m2 r2 0 0 v2)
    by (try reflexivity; eexists; reflexivity).
  reflexivity.
Qed.


Lemma more_planets_raise q k e1 e2 :
  Z.to_nat NPLANETS = S (S (S q)) -> Z.to_nat nsteps = S k ->
  Driver.energy0 GM float_pow v1 r1 = inr e1 ->
  Driver.energy0 GM float_pow v2 r2 = inr e2 ->
  exists st,
    the_run = Raised IndexError st /\
    Driver.planets st
    = Driver.Object P :: Driver.Object Q :: replicate (S q) Driver.ClassList.
Proof.
  intros Hp Hn He1 He2.
  assert (((nsteps <? 0) || (NPLANETS <? 0))%Z = false) as Hneg.
  { apply orb_false_iff. split; apply Z.ltb_ge; lia. }
  pose proof (run_allocated Hneg) as Hrun. cbn zeta in Hrun.
  rewrite Hn, Hp in Hrun. cbn [replicate] in Hrun.
  set (row := replicate q 0%float) in Hrun.
  set (R := replicate k _) in Hrun.
  rewrite (initial_conditions_wide e1 e2 0 0 0 0 0 0 0 0 0 0
             (0%float :: row) (0%float :: row) (0%float :: row)
             (0%float :: row) (0%float :: row)
             R R R R R [] (P2.Globals None None) He1 He2) in Hrun.
  unfold Driver.set_planets in Hrun.
  cbn [Driver.x Driver.y Driver.vx Driver.vy Driver.energy
       Driver.planets Driver.globals] in Hrun.
  rewrite (third_build_raises q _ _ _ _ _ _ _ _ _ _ Hp) in Hrun.
  eexists. split; [exact Hrun | reflexivity].
Qed.


(** The statements after the allocations, on their outcomes. *)
Lemma from_arrays_unfold :
  the_rest
  = match Driver.initial_conditions GM float_pow r1 v1 r2 v2
            (Cell.allocated nsteps NPLANETS) with
    | Raised e s => Raised e s
    | Returned _ s =>
        match Driver.build_all GM NPLANETS m1 m2 dt
                (Driver.set_planets
                   (replicate (Z.to_nat NPLANETS) Driver.ClassList) s) with
        | Raised e s' => Raised e s'
        | Returned _ s' => Driver.stepping GM NPLANETS nsteps s'
        end
    end.
Proof.
  unfold Cell.from_arrays. rewrite DriverFacts.bind_run.
  destruct (Driver.initial_conditions _ _ _ _ _ _ _) as [[] s|e s];
    [|reflexivity].
  rewrite DriverFacts.bind_run, make_list_returns. reflexivity.
Qed.

(** In the model of [np.zeros], which allocates every non-negative shape,
    the run is the allocation followed by the rest. *)
Lemma run_from_arrays :
  (0 <= nsteps)%Z -> (0 <= NPLANETS)%Z -> the_run = the_rest.
Proof.
  intros Hn Hp.
  assert (((nsteps <? 0) || (NPLANETS <? 0))%Z = false) as Hneg.
  { apply orb_false_iff. split; apply Z.ltb_ge; assumption. }
  rewrite (run_allocated Hneg), from_arrays_unfold. reflexivity.
Qed.

(** Every way the cell can end once the arrays are allocated. *)
Lemma from_arrays_outcome :
  match the_rest with
  | Returned _ st =>
      NPLANETS = 2%Z /\ (1 <= nsteps)%Z /\
      exists e1 e2,
        Driver.energy0 GM float_pow v1 r1 = inr e1 /\
        Driver.energy0 GM float_pow v2 r2 = inr e2
  | Raised e st =>
      (e = IndexError /\
       (Z.to_nat nsteps = 0%nat \/ Z.to_nat NPLANETS <> 2%nat)) \/
      Driver.energy0 GM float_pow v1 r1 = inl e \/
      Driver.energy0 GM float_pow v2 r2 = inl e
  end.
Proof.
  pose proof from_arrays_unfold as Hrun. unfold Cell.allocated in Hrun.
  cbv zeta in Hrun.
  destruct (Z.to_nat nsteps) as [|k] eqn:Hn.
  { cbn [replicate] in Hrun. rewrite no_rows_raises in Hrun. rewrite Hrun.
    left. auto. }
  destruct (Z.to_nat NPLANETS) as [|[|[|q]]] eqn:Hp; cbn [replicate] in Hrun.
  - rewrite no_columns_raises in Hrun. rewrite Hrun. left. auto.
  - destruct (Driver.energy0 GM float_pow v1 r1) as [e|e1] eqn:He1.
    + destruct (first_energy_raises e 0 0 0 0 0 [] [] [] [] []
                  (replicate k [0%float]) (replicate k [0%float])
                  (replicate k [0%float]) (replicate k [0%float])
                  (replicate k [0%float]) [] (P2.Globals None None) He1)
        as [s Hs].
      rewrite Hs in Hrun. rewrite Hrun. auto.
    + destruct (one_column_raises e1 0 0 0 0 0
                  (replicate k [0%float]) (replicate k [0%float])
                  (replicate k [0%float]) (replicate k [0%float])
                  (replicate k [0%float]) [] (P2.Globals None None) He1)
        as [s Hs].
      rewrite Hs in Hrun. rewrite Hrun. left. auto.
  - destruct (Driver.energy0 GM float_pow v1 r1) as [e|e1] eqn:He1.
    { destruct (first_energy_raises e 0 0 0 0 0 [0%float] [0%float]
                  [0%float] [0%float] [0%float]
                  (Spec.zeros k) (Spec.zeros k) (Spec.zeros k) (Spec.zeros k)
                  (Spec.zeros k) [] (P2.Globals None None) He1) as [s Hs].
      unfold Spec.zeros in Hs. rewrite Hs in Hrun. rewrite Hrun. auto. }
    destruct (Driver.energy0 GM float_pow v2 r2) as [e|e2] eqn:He2.
    { destruct (second_energy_raises e1 e 0 0 0 0 0 0 0 0 0 0 [] [] [] [] []
                  (Spec.zeros k) (Spec.zeros k) (Spec.zeros k) (Spec.zeros k)
                  (Spec.zeros k) [] (P2.Globals None None) He1 He2) as [s Hs].
      unfold Spec.zeros in Hs. rewrite Hs in Hrun. rewrite Hrun. auto. }
    assert (NPLANETS = 2%Z) as HN by lia.
    rewrite <- run_from_arrays by lia. rewrite HN.
    rewrite (DriverFacts.run_returns GM float_pow m1 r1 v1 m2 r2 v2 dt nsteps
               e1 e2 He1 He2 k Hn).
    split; [reflexivity|]. split; [lia|]. eauto.
  - destruct (Driver.energy0 GM float_pow v1 r1) as [e|e1] eqn:He1.
    { set (row := replicate q 0%float) in Hrun.
      set (R := replicate k _) in Hrun.
      destruct (first_energy_raises e 0 0 0 0 0 (0 :: 0 :: row)%float
                  (0 :: 0 :: row)%float (0 :: 0 :: row)%float
                  (0 :: 0 :: row)%float (0 :: 0 :: row)%float
                  R R R R R [] (P2.Globals None None) He1) as [s Hs].
      rewrite Hs in Hrun. rewrite Hrun. auto. }
    destruct (Driver.energy0 GM float_pow v2 r2) as [e|e2] eqn:He2.
    { set (row := replicate q 0%float) in Hrun.
      set (R := replicate k _) in Hrun.
      destruct (second_energy_raises e1 e 0 0 0 0 0 0 0 0 0 0
                  (0%float :: row) (0%float :: row) (0%float :: row)
                  (0%float :: row) (0%float :: row)
                  R R R R R [] (P2.Globals None None) He1 He2) as [s Hs].
      rewrite Hs in Hrun. rewrite Hrun. auto. }
    destruct (more_planets_raise q k e1 e2 Hp Hn He1 He2) as (s & Hs & _).
    rewrite <- run_from_arrays by lia. rewrite Hs. left. split; [auto|].
    right. lia.
Qed.

(** X8: once the five [np.zeros] calls have returned their arrays, of
    shape ([nsteps], [NPLANETS]), the rest of the cell runs to the end of
    the stepping loop exactly when [NPLANETS] is 2, [nsteps] is at least 1
    and the two initial energies evaluate; the cell has no path for
    another number of planets or for an empty trajectory. *)
Theorem run_returns_iff :
  (exists st, the_rest = Returned tt st) <->
  NPLANETS = 2%Z /\ (1 <= nsteps)%Z /\
  exists e1 e2,
    Driver.energy0 GM float_pow v1 r1 = inr e1 /\
    Driver.energy0 GM float_pow v2 r2 = inr e2.
Proof.
  split.
  - intros [st H]. pose proof from_arrays_outcome as Ho. rewrite H in Ho.
    exact Ho.
  - intros (HN & Hn & e1 & e2 & He1 & He2).
    rewrite <- run_from_arrays by lia. rewrite HN.
    destruct (Z.to_nat nsteps) as [|k] eqn:Hk; [lia|].
    eexists.
    apply (DriverFacts.run_returns GM float_pow m1 r1 v1 m2 r2 v2 dt nsteps
             e1 e2 He1 He2 k Hk).
Qed.

(** X9: once the five [np.zeros] calls have returned their arrays, of a
    shape ([nsteps], [NPLANETS]) that is then not negative, whatever the
    rest of the cell raises is [IndexError], with [nsteps = 0] or a number
    of planets other than 2, or the exception of one of the two
    initial-energy expressions. *)
Theorem run_raises_only (e : exn) (st : Driver.state) :
  (0 <= nsteps)%Z -> (0 <= NPLANETS)%Z ->
  the_rest = Raised e st ->
  (e = IndexError /\ (nsteps = 0%Z \/ NPLANETS <> 2%Z)) \/
  Driver.energy0 GM float_pow v1 r1 = inl e \/
  Driver.energy0 GM float_pow v2 r2 = inl e.
Proof.
  intros Hn Hp H. pose proof from_arrays_outcome as Ho. rewrite H in Ho.
  destruct Ho as [(-> & Hidx)|Ho]; [|auto].
  left. split; [reflexivity|]. destruct Hidx as [H0|H2]; [left|right]; lia.
Qed.

(** X10: a negative [nsteps] or [NPLANETS] is refused by the first
    [np.zeros], with [ValueError], before any name of the run is bound. *)
Theorem run_refuses_negative_count :
  (nsteps < 0)%Z \/ (NPLANETS < 0)%Z ->
  the_run = Raised ValueError Driver.fresh_state.
Proof.
  intros H. apply allocate_refused, orb_true_iff.
  destruct H as [H|H]; [left | right]; apply Z.ltb_lt; exact H.
Qed.

(** X11: with three or more planets announced (and a first row, and
    initial energies that evaluate) the run raises [IndexError] at [m[2]]:
    the first two planets are built with their initial force, the others
    are still the placeholders, and no step is made. *)
Theorem run_third_planet_raises (e1 e2 : num) :
  (3 <= NPLANETS)%Z -> (1 <= nsteps)%Z ->
  Driver.energy0 GM float_pow v1 r1 = inr e1 ->
  Driver.energy0 GM float_pow v2 r2 = inr e2 ->
  exists st,
    the_run = Raised IndexError st /\
    Driver.planets st
    = Driver.Object P :: Driver.Object Q
        :: replicate (Z.to_nat NPLANETS - 2) Driver.ClassList.
Proof.
  intros HN Hn He1 He2.
  destruct (Z.to_nat NPLANETS) as [|[|[|q]]] eqn:Hp; try lia.
  destruct (Z.to_nat nsteps) as [|k] eqn:Hk; [lia|].
  destruct (more_planets_raise q k e1 e2 Hp Hk He1 He2) as (st & H1 & H2).
  exists st. split; [exact H1|]. rewrite H2. reflexivity.
Qed.

(** X12: the stepping loop records no energy and does not touch the
    module-level [fx], [fy].  After a run the [energy] array holds the two
    initial energies in row 0 and zeros in every other row, and [fx], [fy]
    still hold the second planet's initial force. *)
Theorem energy_only_in_row_zero (e1 e2 : num) :
  (1 <= nsteps)%Z ->
  Driver.energy0 GM float_pow v1 r1 = inr e1 ->
  Driver.energy0 GM float_pow v2 r2 = inr e2 ->
  exists st,
    Driver.run GM float_pow 2 m1 r1 v1 m2 r2 v2 dt nsteps = Returned tt st /\
    Driver.energy st
    = [val e1; val e2] :: replicate (Z.to_nat nsteps - 1) [0%float; 0%float] /\
    Driver.globals st = P2.Globals (Some (P2.fx Q)) (Some (P2.fy Q)).
Proof.
  intros Hn He1 He2.
  destruct (Z.to_nat nsteps) as [|k] eqn:Hk; [lia|].
  eexists. split.
  - apply (DriverFacts.run_returns GM float_pow m1 r1 v1 m2 r2 v2 dt nsteps
             e1 e2 He1 He2 k Hk).
  - cbn [Spec.traj_state Driver.energy Driver.globals].
    replace (S k - 1)%nat with k by lia. split; reflexivity.
Qed.

(** X15: what the plot cell draws.  After a run, [x[:,j]] and [y[:,j]]
    are, for the first planet ([j = 0]) and for the second ([j = 1]), the
    planet's [x] and [y] after 0, 1, ..., [nsteps - 1] calls of [verlet2],
    in this order, starting from the planet as built. *)
Theorem plotted_curves (e1 e2 : num) :
  (1 <= nsteps)%Z ->
  Driver.energy0 GM float_pow v1 r1 = inr e1 ->
  Driver.energy0 GM float_pow v2 r2 = inr e2 ->
  let steps := seq 0 (Z.to_nat nsteps) in
  exists st,
    Driver.run GM float_pow 2 m1 r1 v1 m2 r2 v2 dt nsteps = Returned tt st /\
    Cell.curve 2 st 0
    = inr (map (fun i => val (P2.x (Spec.after GM i P))) steps,
           map (fun i => val (P2.y (Spec.after GM i P))) steps) /\
    Cell.curve 2 st 1
    = inr (map (fun i => val (P2.x (Spec.after GM i Q))) steps,
           map (fun i => val (P2.y (Spec.after GM i Q))) steps).
Proof.
  intros Hn He1 He2 steps. subst steps.
  destruct (Z.to_nat nsteps) as [|k] eqn:Hk; [lia|].
  eexists. split.
  - apply (DriverFacts.run_returns GM float_pow m1 r1 v1 m2 r2 v2 dt nsteps
             e1 e2 He1 He2 k Hk).
  - unfold Cell.curve, Cell.column.
    cbn [Spec.traj_state Driver.x Driver.y Spec.zeros replicate].
    rewrite !app_nil_r. unfold Spec.rows. rewrite !map_map.
    split; reflexivity.
Qed.

End Script.

(** *** The notebook's constants as instances *)

Lemma run_raises_only_witness :
  ((0 <= 3)%Z /\ (0 <= 3)%Z /\
   Cell.from_arrays Notebook.GM Notebook.pow 3
     Notebook.m1 Notebook.r1 Notebook.v1
     Notebook.m2 Notebook.r2 Notebook.v2 Notebook.dt 3
   = Raised IndexError
       (exit_state
          (Cell.from_arrays Notebook.GM Notebook.pow 3
             Notebook.m1 Notebook.r1 Notebook.v1
             Notebook.m2 Notebook.r2 Notebook.v2 Notebook.dt 3))) /\
  ((IndexError = IndexError /\ (3%Z = 0%Z \/ 3%Z <> 2%Z)) \/
   Driver.energy0 Notebook.GM Notebook.pow Notebook.v1 Notebook.r1
   = inl IndexError \/
   Driver.energy0 Notebook.GM Notebook.pow Notebook.v2 Notebook.r2
   = inl IndexError).
Proof.
  assert (0 <= 3)%Z as H3 by lia.
  assert (Cell.from_arrays Notebook.GM Notebook.pow 3
            Notebook.m1 Notebook.r1 Notebook.v1
            Notebook.m2 Notebook.r2 Notebook.v2 Notebook.dt 3
          = Raised IndexError
              (exit_state
                 (Cell.from_arrays Notebook.GM Notebook.pow 3
                    Notebook.m1 Notebook.r1 Notebook.v1
                    Notebook.m2 Notebook.r2 Notebook.v2 Notebook.dt 3))) as H
    by (vm_compute; reflexivity).
  split; [auto|].
  exact (run_raises_only Notebook.GM Notebook.pow 3
           Notebook.m1 Notebook.r1 Notebook.v1
           Notebook.m2 Notebook.r2 Notebook.v2 Notebook.dt 3 _ _ H3 H3 H).
Defined.

Lemma run_refuses_negative_count_witness :
  ((-1 < 0)%Z \/ (Notebook.NPLANETS < 0)%Z) /\
  Driver.run Notebook.GM Notebook.pow Notebook.NPLANETS
    Notebook.m1 Notebook.r1 Notebook.v1
    Notebook.m2 Notebook.r2 Notebook.v2 Notebook.dt (-1)
  = Raised ValueError Driver.fresh_state.
Proof.
  assert ((-1 < 0)%Z \/ (Notebook.NPLANETS < 0)%Z) as H by (left; lia).
  split; [exact H|].
  exact (run_refuses_negative_count Notebook.GM Notebook.pow
           Notebook.NPLANETS Notebook.m1 Notebook.r1 Notebook.v1
           Notebook.m2 Notebook.r2 Notebook.v2 Notebook.dt (-1) H).
Defined.

Lemma run_third_planet_raises_witness :
  ((3 <= 3)%Z /\ (1 <= Notebook.nsteps)%Z /\
   Driver.energy0 Notebook.GM Notebook.pow Notebook.v1 Notebook.r1
   = inr (Bodies.initial_energy Notebook.GM Notebook.v1 Notebook.r1) /\
   Driver.energy0 Notebook.GM Notebook.pow Notebook.v2 Notebook.r2
   = inr (Bodies.initial_energy Notebook.GM Notebook.v2 Notebook.r2)) /\
  exists st,
    Driver.run Notebook.GM Notebook.pow 3
      Notebook.m1 Notebook.r1 Notebook.v1
      Notebook.m2 Notebook.r2 Notebook.v2 Notebook.dt Notebook.nsteps
    = Raised IndexError st /\
    Driver.planets st !! 2 = Some Driver.ClassList.
Proof.
  assert (Driver.energy0 Notebook.GM Notebook.pow Notebook.v1 Notebook.r1
          = inr (Bodies.initial_energy Notebook.GM Notebook.v1 Notebook.r1))
    as H1 by (vm_compute; reflexivity).
  assert (Driver.energy0 Notebook.GM Notebook.pow Notebook.v2 Notebook.r2
          = inr (Bodies.initial_energy Notebook.GM Notebook.v2 Notebook.r2))
    as H2 by (vm_compute; reflexivity).
  assert (3 <= 3)%Z as H3 by lia.
  assert (1 <= Notebook.nsteps)%Z as Hn by (unfold Notebook.nsteps; lia).
  split; [auto|].
  destruct (run_third_planet_raises Notebook.GM Notebook.pow 3
              Notebook.m1 Notebook.r1 Notebook.v1
              Notebook.m2 Notebook.r2 Notebook.v2 Notebook.dt Notebook.nsteps
              _ _ H3 Hn H1 H2) as (st & Hrun & Hpl).
  exists st. split; [exact Hrun|]. rewrite Hpl. reflexivity.
Defined.

Lemma energy_only_in_row_zero_witness :
  ((1 <= Notebook.nsteps)%Z /\
   Driver.energy0 Notebook.GM Notebook.pow Notebook.v1 Notebook.r1
   = inr (Bodies.initial_energy Notebook.GM Notebook.v1 Notebook.r1) /\
   Driver.energy0 Notebook.GM Notebook.pow Notebook.v2 Notebook.r2
   = inr (Bodies.initial_energy Notebook.GM Notebook.v2 Notebook.r2)) /\
  exists st,
    Driver.run Notebook.GM Notebook.pow 2
      Notebook.m1 Notebook.r1 Notebook.v1
      Notebook.m2 Notebook.r2 Notebook.v2 Notebook.dt Notebook.nsteps
    = Returned tt st /\
    Driver.energy st !! 1 = Some [0%float; 0%float].
Proof.
  assert (Driver.energy0 Notebook.GM Notebook.pow Notebook.v1 Notebook.r1
          = inr (Bodies.initial_energy Notebook.GM Notebook.v1 Notebook.r1))
    as H1 by (vm_compute; reflexivity).
  assert (Driver.energy0 Notebook.GM Notebook.pow Notebook.v2 Notebook.r2
          = inr (Bodies.initial_energy Notebook.GM Notebook.v2 Notebook.r2))
    as H2 by (vm_compute; reflexivity).
  assert (1 <= Notebook.nsteps)%Z as Hn by (unfold Notebook.nsteps; lia).
  split; [auto|].
  destruct (energy_only_in_row_zero Notebook.GM Notebook.pow
              Notebook.m1 Notebook.r1 Notebook.v1
              Notebook.m2 Notebook.r2 Notebook.v2 Notebook.dt Notebook.nsteps
              _ _ Hn H1 H2) as (st & Hrun & HE & _).
  exists st. split; [exact Hrun|]. rewrite HE. reflexivity.
Defined.

Lemma plotted_curves_witness :
  ((1 <= 3)%Z /\
   Driver.energy0 Notebook.GM Notebook.pow Notebook.v1 Notebook.r1
   = inr (Bodies.initial_energy Notebook.GM Notebook.v1 Notebook.r1) /\
   Driver.energy0 Notebook.GM Notebook.pow Notebook.v2 Notebook.r2
   = inr (Bodies.initial_energy Notebook.GM Notebook.v2 Notebook.r2)) /\
  exists st,
    Driver.run Notebook.GM Notebook.pow 2
      Notebook.m1 Notebook.r1 Notebook.v1
      Notebook.m2 Notebook.r2 Notebook.v2 Notebook.dt 3
    = Returned tt st /\
    Cell.curve 2 st 0
    = inr ([val (P2.x Notebook.planet1); val (P2.x Notebook.planet1_row1);
            val (P2.x Notebook.planet1_row2)],
           [val (P2.y Notebook.planet1); val (P2.y Notebook.planet1_row1);
            val (P2.y Notebook.planet1_row2)]).
Proof.
  assert (Driver.energy0 Notebook.GM Notebook.pow Notebook.v1 Notebook.r1
          = inr (Bodies.initial_energy Notebook.GM Notebook.v1 Notebook.r1))
    as H1 by (vm_compute; reflexivity).
  assert (Driver.energy0 Notebook.GM Notebook.pow Notebook.v2 Notebook.r2
          = inr (Bodies.initial_energy Notebook.GM Notebook.v2 Notebook.r2))
    as H2 by (vm_compute; reflexivity).
  assert (1 <= 3)%Z as Hn by lia.
  split; [auto|].
  destruct (plotted_curves Notebook.GM Notebook.pow
              Notebook.m1 Notebook.r1 Notebook.v1
              Notebook.m2 Notebook.r2 Notebook.v2 Notebook.dt 3
              _ _ Hn H1 H2) as (st & Hrun & H0 & _).
  exists st. split; [exact Hrun|]. rewrite H0. vm_compute. reflexivity.
Defined.

(** *** Each planet on its own *)
(** X13: the building loop computes each planet's initial force with
    the expressions of [get_force] written out again; what it stores is
    what the constructor followed by a call of [get_force] gives, and the
    module-level [fx], [fy] it leaves are that planet's force. *)
Theorem build_force_is_get_force (GM m1 m2 dt : float) (i : nat)
    (m px py pvx pvy : float) (X Y VX VY E : list (list float))
    (pl : list Driver.slot) (g : P2.globals) :
  [m1; m2] !! i = Some m ->
  Driver.getitem X 0 i = inr (Num NpFloat64 px) ->
  Driver.getitem Y 0 i = inr (Num NpFloat64 py) ->
  Driver.getitem VX 0 i = inr (Num NpFloat64 pvx) ->
  Driver.getitem VY 0 i = inr (Num NpFloat64 pvy) ->
  is_Some (pl !! i) ->
  exists p0 p,
    P2.__init__ (lit m) (Num NpFloat64 px) (Num NpFloat64 py)
      (Num NpFloat64 pvx) (Num NpFloat64 pvy) (lit 0) (lit 0) (lit dt)
    = inr p0 /\
    P2.get_force GM p0 = Returned tt p /\
    Driver.build GM m1 m2 dt i (Driver.State X Y VX VY E pl g)
    = Returned tt
        (Driver.State X Y VX VY E (<[i := Driver.Object p]> pl)
           (P2.Globals (Some (P2.fx p)) (Some (P2.fy p)))).
Proof.
  intros Hm HX HY HVX HVY Hpl.
  eexists _, (Spec.built GM m px py pvx pvy dt).
  split; [unfold P2.__init__;
          rewrite P2Facts.truediv_nonzero by reflexivity; reflexivity|].
  split.
  - rewrite ClassBehaviour.get_force_numpy by reflexivity. reflexivity.
  - apply (DriverFacts.build_returns GM m1 m2 dt i m px py pvx pvy);
      assumption.
Qed.

Lemma build_force_is_get_force_witness :
  exists p0,
    P2.__init__ (lit Notebook.m1) (Num NpFloat64 Notebook.r1)
      (Num NpFloat64 0) (Num NpFloat64 0) (Num NpFloat64 Notebook.v1)
      (lit 0) (lit 0) (lit Notebook.dt)
    = inr p0 /\
    P2.get_force Notebook.GM p0 = Returned tt Notebook.planet1.
Proof.
  destruct (build_force_is_get_force Notebook.GM Notebook.m1 Notebook.m2
              Notebook.dt 0 Notebook.m1 Notebook.r1 0 0 Notebook.v1
              [[Notebook.r1; Notebook.r2]] [[0; 0]]%float [[0; 0]]%float
              [[Notebook.v1; Notebook.v2]] [[0; 0]]%float
              [Driver.ClassList; Driver.ClassList] (P2.Globals None None)
              eq_refl eq_refl eq_refl eq_refl eq_refl
              (ex_intro _ Driver.ClassList eq_refl))
    as (p0 & p & Hinit & Hforce & Hbuild).
  exists p0. split; [exact Hinit|].
  rewrite Hforce. f_equal.
  injection Hinit as <-. revert Hforce. vm_compute. congruence.
Defined.

(** X14: the planets do not interact.  Two runs that differ in the
    second planet's mass, radius and speed only record the same numbers for
    the first planet, in every row, and plot the same first curve. *)
Theorem planets_do_not_interact (GM : float) float_pow
    (m1 r1 v1 dt : float) (nsteps : Z)
    (m2 r2 v2 m2' r2' v2' : float) (e1 e2 e2' : num) :
  (1 <= nsteps)%Z ->
  Driver.energy0 GM float_pow v1 r1 = inr e1 ->
  Driver.energy0 GM float_pow v2 r2 = inr e2 ->
  Driver.energy0 GM float_pow v2' r2' = inr e2' ->
  exists st st',
    Driver.run GM float_pow 2 m1 r1 v1 m2 r2 v2 dt nsteps = Returned tt st /\
    Driver.run GM float_pow 2 m1 r1 v1 m2' r2' v2' dt nsteps
    = Returned tt st' /\
    Cell.curve 2 st 0 = Cell.curve 2 st' 0 /\
    forall i, Spec.recorded st i 0 = Spec.recorded st' i 0.
Proof.
  intros Hn He1 He2 He2'.
  destruct (Z.to_nat nsteps) as [|k] eqn:Hk; [lia|].
  eexists _, _.
  split; [apply (DriverFacts.run_returns GM float_pow m1 r1 v1 m2 r2 v2 dt
                   nsteps e1 e2 He1 He2 k Hk)|].
  split; [apply (DriverFacts.run_returns GM float_pow m1 r1 v1 m2' r2' v2' dt
                   nsteps e1 e2' He1 He2' k Hk)|].
  split.
  - unfold Cell.curve, Cell.column.
    cbn [Spec.traj_state Driver.x Driver.y Spec.zeros replicate].
    rewrite !app_nil_r. unfold Spec.rows. rewrite !map_map. reflexivity.
  - intros i. unfold Spec.recorded, Spec.traj_state. DriverFacts.fields.
    unfold Spec.zeros. cbn [replicate]. rewrite !app_nil_r.
    destruct (decide (i < S k)) as [Hi|Hi].
    + rewrite !DriverFacts.rows_lookup by exact Hi. reflexivity.
    + rewrite !(lookup_ge_None_2 (Spec.rows GM _ _ _ (S k)) i)
        by (rewrite DriverFacts.rows_length; lia).
      reflexivity.
Qed.

Lemma planets_do_not_interact_witness :
  ((1 <= Notebook.nsteps)%Z /\
   Driver.energy0 Notebook.GM Notebook.pow Notebook.v1 Notebook.r1
   = inr (Bodies.initial_energy Notebook.GM Notebook.v1 Notebook.r1) /\
   Driver.energy0 Notebook.GM Notebook.pow Notebook.v2 Notebook.r2
   = inr (Bodies.initial_energy Notebook.GM Notebook.v2 Notebook.r2) /\
   Driver.energy0 Notebook.GM Notebook.pow 1 2
   = inr (Bodies.initial_energy Notebook.GM 1 2)) /\
  exists st st',
    Driver.run Notebook.GM Notebook.pow 2
      Notebook.m1 Notebook.r1 Notebook.v1
      Notebook.m2 Notebook.r2 Notebook.v2 Notebook.dt Notebook.nsteps
    = Returned tt st /\
    Driver.run Notebook.GM Notebook.pow 2
      Notebook.m1 Notebook.r1 Notebook.v1 1 2 1 Notebook.dt Notebook.nsteps
    = Returned tt st' /\
    Spec.recorded st 1999 0 = Spec.recorded st' 1999 0.
Proof.
  assert (Driver.energy0 Notebook.GM Notebook.pow Notebook.v1 Notebook.r1
          = inr (Bodies.initial_energy Notebook.GM Notebook.v1 Notebook.r1))
    as H1 by (vm_compute; reflexivity).
  assert (Driver.energy0 Notebook.GM Notebook.pow Notebook.v2 Notebook.r2
          = inr (Bodies.initial_energy Notebook.GM Notebook.v2 Notebook.r2))
    as H2 by (vm_compute; reflexivity).
  assert (Driver.energy0 Notebook.GM Notebook.pow 1 2
          = inr (Bodies.initial_energy Notebook.GM 1 2))
    as H3 by (vm_compute; reflexivity).
  assert (1 <= Notebook.nsteps)%Z as Hn by (unfold Notebook.nsteps; lia).
  split; [auto|].
  destruct (planets_do_not_interact Notebook.GM Notebook.pow
              Notebook.m1 Notebook.r1 Notebook.v1 Notebook.dt Notebook.nsteps
              Notebook.m2 Notebook.r2 Notebook.v2 1 2 1 _ _ _ Hn H1 H2 H3)
    as (st & st' & Hrun & Hrun' & _ & Hrec).
  exists st, st'. auto.
Defined.

End DriverBehaviour.

(* ====================================================================== *)
(** ** The driver cell from its first line *)
(* ====================================================================== *)

Module CellBehaviour.
Import Py.
Local Open Scope py_scope.
Local Open Scope num_scope.

Lemma orbit_speed_inr (GM r : float) (v : num) :
  Cell.orbit_speed GM r = inr v <->
  (r =? 0)%float = false /\ (GM / r <? 0)%float = false /\
  v = lit (sqrt (GM / r)).
Proof.
  unfold Cell.orbit_speed, truediv, math_sqrt, quot, lit.
  cbn [kind_of val coerce rbind].
  destruct (r =? 0)%float; cbn [rbind val].
  { split; [discriminate | intros [H _]; discriminate]. }
  destruct (GM / r <? 0)%float.
  { split; [discriminate | intros (_ & H & _); discriminate]. }
  split; [intros [= <-]; auto | intros (_ & _ & ->); reflexivity].
Qed.

Lemma energy0_guarded (GM : float) float_pow (u r : float) :
  (r =? 0)%float = false ->
  Driver.energy0 GM float_pow u r
  = match float_pow u 2%float with
    | inl e => inl e
    | inr p => inr (lit 0.5 * lit p - lit GM // lit r)
    end.
Proof.
  intros Hr. unfold Driver.energy0.
  rewrite (P2Facts.truediv_nonzero (lit GM) (lit r)) by exact Hr.
  destruct (float_pow u 2%float); reflexivity.
Qed.

Section Top.

Variable GM : float.
Variable float_pow : float -> float -> result float.
Variables (NPLANETS : Z) (m1 r1 m2 r2 dt tmax : float).

(** X16: the cell's first lines evaluate [v1], [v2] and [nsteps] and,
    once the five [np.zeros] calls have returned their arrays, the rest of
    the cell runs to the end of the stepping loop, exactly when both radii
    and the time step are not zero, neither [GM/r1] nor [GM/r2] is
    negative, [int(tmax/dt)] is an integer that is at least 1, [NPLANETS]
    is 2 and the two squares [v**2] evaluate.  Once [math.sqrt(GM/r)] has
    returned, the division [GM/r] of the initial energy cannot raise. *)
Theorem cell_returns_iff :
  (exists v1 v2 nsteps st,
     Cell.constants GM r1 r2 dt tmax = inr (v1, v2, nsteps) /\
     Cell.from_arrays GM float_pow NPLANETS
       m1 r1 (val v1) m2 r2 (val v2) dt nsteps
     = Returned tt st) <->
  ((r1 =? 0)%float = false /\ (GM / r1 <? 0)%float = false) /\
  ((r2 =? 0)%float = false /\ (GM / r2 <? 0)%float = false) /\
  (dt =? 0)%float = false /\
  (exists n, Cell.int_ (lit tmax // lit dt) = inr n /\ (1 <= n)%Z) /\
  NPLANETS = 2%Z /\
  exists p1 p2,
    float_pow (sqrt (GM / r1)) 2%float = inr p1 /\
    float_pow (sqrt (GM / r2)) 2%float = inr p2.
Proof.
  unfold Cell.constants. split.
  - intros (v1 & v2 & n & st & Hc & H).
    destruct (Cell.orbit_speed GM r1) as [e|w1] eqn:Hv1; [discriminate|].
    destruct (Cell.orbit_speed GM r2) as [e|w2] eqn:Hv2; [discriminate|].
    apply orbit_speed_inr in Hv1 as (Hr1 & Hs1 & ->).
    apply orbit_speed_inr in Hv2 as (Hr2 & Hs2 & ->).
    cbn [rbind] in Hc. unfold truediv in Hc.
    cbn [kind_of lit coerce val] in Hc.
    destruct (dt =? 0)%float eqn:Hdt; [discriminate|]. cbn [rbind] in Hc.
    destruct (Cell.int_ _) as [e|n'] eqn:Hn; [discriminate|].
    cbn [rbind] in Hc. injection Hc as <- <- <-. cbn [val lit] in H.
    pose proof (DriverBehaviour.from_arrays_outcome GM float_pow NPLANETS
                  m1 r1 (sqrt (GM / r1)) m2 r2 (sqrt (GM / r2)) dt n') as Ho.
    rewrite H in Ho. destruct Ho as (HN & Hge & e1 & e2 & He1 & He2).
    rewrite energy0_guarded in He1, He2 by assumption.
    destruct (float_pow (sqrt (GM / r1)) 2%float) as [|p1]; [discriminate|].
    destruct (float_pow (sqrt (GM / r2)) 2%float) as [|p2]; [discriminate|].
    repeat split; eauto.
  - intros ((Hr1 & Hs1) & (Hr2 & Hs2) & Hdt & (n & Hn & Hge) & HN
            & p1 & p2 & Hp1 & Hp2).
    rewrite (proj2 (orbit_speed_inr GM r1 _) (conj Hr1 (conj Hs1 eq_refl))).
    rewrite (proj2 (orbit_speed_inr GM r2 _) (conj Hr2 (conj Hs2 eq_refl))).
    cbn [rbind].
    rewrite (P2Facts.truediv_nonzero (lit tmax) (lit dt)) by exact Hdt.
    cbn [rbind]. rewrite Hn. cbn [rbind].
    assert (Driver.energy0 GM float_pow (sqrt (GM / r1)) r1
            = inr (lit 0.5 * lit p1 - lit GM // lit r1)) as He1
      by (rewrite energy0_guarded, Hp1 by exact Hr1; reflexivity).
    assert (Driver.energy0 GM float_pow (sqrt (GM / r2)) r2
            = inr (lit 0.5 * lit p2 - lit GM // lit r2)) as He2
      by (rewrite energy0_guarded, Hp2 by exact Hr2; reflexivity).
    destruct (Z.to_nat n) as [|k] eqn:Hk; [lia|].
    eexists _, _, _, _. split; [reflexivity|]. cbn [val lit].
    rewrite <- DriverBehaviour.run_from_arrays by lia. rewrite HN.
    apply (DriverFacts.run_returns GM float_pow m1 r1 _ m2 r2 _ dt n
             _ _ He1 He2 k Hk).
Qed.

End Top.

(** The notebook's own constants: the first lines give [nsteps = 2000],
    and the rest of the cell runs to the end of the stepping loop. *)
Lemma cell_returns_iff_witness :
  exists v1 v2 st,
    Cell.constants Notebook.GM Notebook.r1 Notebook.r2
      Notebook.dt Notebook.tmax
    = inr (v1, v2, 2000%Z) /\
    Cell.from_arrays Notebook.GM Notebook.pow Notebook.NPLANETS
      Notebook.m1 Notebook.r1 (val v1) Notebook.m2 Notebook.r2 (val v2)
      Notebook.dt 2000
    = Returned tt st.
Proof.
  destruct (proj2 (cell_returns_iff Notebook.GM Notebook.pow
                     Notebook.NPLANETS Notebook.m1 Notebook.r1
                     Notebook.m2 Notebook.r2 Notebook.dt Notebook.tmax))
    as (v1 & v2 & n & st & Hc & Hrun).
  { split; [split; reflexivity|].
    split; [split; reflexivity|].
    split; [reflexivity|].
    split; [exists 2000%Z; split; [vm_compute; reflexivity | lia]|].
    split; [reflexivity|].
    eexists _, _. split; reflexivity. }
  assert (n = 2000%Z) as ->.
  { revert Hc. vm_compute. intros [= _ _ <-]. reflexivity. }
  eauto.
Defined.

End CellBehaviour.

(* ====================================================================== *)
(** ** The notebook's own run, evaluated *)
(* ====================================================================== *)

Module Examples.
Import Py.
Local Open Scope py_scope.

(** The first planet the driver builds is [planet1]. *)
Example planet1_is_built :
  Spec.built Notebook.GM Notebook.m1 Notebook.r1 0 0 Notebook.v1 Notebook.dt
  = Notebook.planet1.
Proof. vm_compute. reflexivity. Qed.

Example planet1_first_step :
  P2.verlet2 Notebook.GM Notebook.planet1
  = Returned tt Notebook.planet1_row1.
Proof. vm_compute. reflexivity. Qed.

(** The same numbers held as Python floats step alike. *)
Example orbiting_first_step :
  P2.verlet2 Notebook.GM Notebook.orbiting
  = Returned tt Notebook.orbiting_row1.
Proof. vm_compute. reflexivity. Qed.

(** A run of three rows records the first planet's initial condition and
    its first two steps in column 0. *)
Example run_three_rows :
  let st := exit_state
              (Driver.run Notebook.GM Notebook.pow Notebook.NPLANETS
                 Notebook.m1 Notebook.r1 Notebook.v1
                 Notebook.m2 Notebook.r2 Notebook.v2 Notebook.dt 3) in
  Spec.recorded st 0 0 = Some (Spec.sample Notebook.planet1) /\
  Spec.recorded st 1 0 = Some (Spec.sample Notebook.planet1_row1) /\
  Spec.recorded st 2 0 = Some (Spec.sample Notebook.planet1_row2) /\
  Spec.recorded st 3 0 = None.
Proof. vm_compute. auto. Qed.

(** With a third planet announced the list of masses is too short, and
    with a negative step count [np.zeros] refuses the shape. *)
Example run_three_planets :
  exists st,
    Driver.run Notebook.GM Notebook.pow 3
      Notebook.m1 Notebook.r1 Notebook.v1
      Notebook.m2 Notebook.r2 Notebook.v2 Notebook.dt 3
    = Raised IndexError st.
Proof. eexists. vm_compute. reflexivity. Qed.

Example run_negative_steps :
  Driver.run Notebook.GM Notebook.pow Notebook.NPLANETS
    Notebook.m1 Notebook.r1 Notebook.v1
    Notebook.m2 Notebook.r2 Notebook.v2 Notebook.dt (-1)
  = Raised ValueError Driver.fresh_state.
Proof. vm_compute. reflexivity. Qed.

(** [tmax/dt] is exactly [2000.0]. *)
Example nsteps_quotient : (Notebook.tmax / Notebook.dt)%float = 2000%float.
Proof. vm_compute. reflexivity. Qed.

(** [int(tmax/dt)] is [Notebook.nsteps]. *)
Example nsteps_is_int :
  Cell.int_ (lit Notebook.tmax // lit Notebook.dt)%num = inr Notebook.nsteps.
Proof. vm_compute. reflexivity. Qed.

(** [get_force] on [Notebook.numpy_origin] leaves [Bodies.lost]. *)
Example origin_is_lost :
  P2.get_force Notebook.GM Notebook.numpy_origin = Returned tt Bodies.lost.
Proof. vm_compute. reflexivity. Qed.

End Examples.
